(** * Daily Budget Tracker: the stores and the monthly aggregation

    A shallow embedding of [streamlit_app.py]: the two CSV-backed stores
    (daily expenses, salary periods), their load / append / delete
    operations over an explicit file-system state, and the month-scoped
    computations of the page script (month universe, totals, remaining
    budget, salary income).

    Conventions of the embedding.
    - A pandas integer column is [int64]; sums and differences of such
      values wrap around, which is written out with [wrap64].
    - Strings are sequences of one-byte characters; the dates and months
      the application handles are ASCII.
    - [pd.to_datetime] on a single text is a parameter of the development
      ([to_datetime], [None] when the text does not parse); the text
      [to_csv] writes for a timestamp is a parameter too ([datetime_csv]).
      A column converted with [errors='coerce'] is parsed as pandas does
      it: with the one format guessed from its first cell that is not
      missing ([guess_datetime_format], [strptime], parameters as well),
      and text by text only when no format can be guessed.
    - A CSV file is represented by the table [pd.read_csv] returns for it
      (or by [Unreadable] when [pd.read_csv] rejects it); the expense file
      has the four columns the application writes, with texts for Date
      and Category and integers for the amounts; the salary file has
      the columns Start Date, End Date, Salary and, unless it is an older
      file, Pay Date, its date cells being texts or empty.
    - The functions of the source that take a [file] argument are always
      called with its default, so the two files are the two fields of
      [FileSystem]. *)

From Stdlib Require Import ZArith String Ascii List Lia Bool.
From stdpp Require Import base list sorting gmap strings.

Local Open Scope Z_scope.

(** ** 64-bit integers of pandas columns *)

Definition wrap64 (z : Z) : Z := (z + 2 ^ 63) mod 2 ^ 64 - 2 ^ 63.

Definition in_int64 (z : Z) : Prop := - 2 ^ 63 <= z < 2 ^ 63.

Definition add64 (a b : Z) : Z := wrap64 (a + b).

Definition sub64 (a b : Z) : Z := wrap64 (a - b).

(** [Series.sum()] of an integer column. *)
Definition Series_sum (l : list Z) : Z := fold_left add64 l 0.

(** The mathematical sum, used to state what [Series_sum] computes. *)
Definition Zsum (l : list Z) : Z := fold_right Z.add 0 l.

(** ** Strings: order, slices, prefixes *)

(** Python compares [str] values lexicographically, character by
    character. *)
Definition str_le (a b : string) : Prop := String.leb a b = true.

Definition str_lt (a b : string) : Prop := String.ltb a b = true.

#[global] Instance str_le_dec : RelDecision str_le.
Proof. intros a b. unfold str_le. apply _. Defined.

#[global] Instance str_lt_dec : RelDecision str_lt.
Proof. intros a b. unfold str_lt. apply _. Defined.

(** [sorted(xs)] on strings. *)
Definition sorted (l : list string) : list string := merge_sort str_le l.

(** [Series.unique()]: the distinct values in order of first appearance. *)
Fixpoint unique_from (seen l : list string) : list string :=
  match l with
  | [] => []
  | x :: l' =>
      if bool_decide (x ∈ seen) then unique_from seen l'
      else x :: unique_from (x :: seen) l'
  end.

Definition unique (l : list string) : list string := unique_from [] l.

(** [s[:7]]. *)
Definition slice7 (s : string) : string := String.substring 0 7 s.

(** [s.startswith(p)]. *)
Definition startswith (s p : string) : bool := String.prefix p s.

(** ** Dates and timestamps *)

(** A [datetime.date] of the form widgets. *)
Record date := mkDate { d_year : nat; d_month : nat; d_day : nat }.

(** A pandas [Timestamp]: a calendar day and the time elapsed since its
    midnight. *)
Record Timestamp := mkTimestamp
  { year : nat; month : nat; day : nat; time_of_day : nat }.

#[global] Instance date_eq_dec : EqDecision date.
Proof. solve_decision. Defined.

#[global] Instance Timestamp_eq_dec : EqDecision Timestamp.
Proof. solve_decision. Defined.

Definition digit (n : nat) : ascii := ascii_of_nat (48 + n mod 10).

(** Zero-padded decimal fields, as [%m] / [%d] and [%Y] print them (a
    Timestamp lies between the years 1677 and 2262, so [%Y] has four
    digits). *)
Definition pad2 (n : nat) : string :=
  String (digit (n / 10)) (String (digit n) EmptyString).

Definition pad4 (n : nat) : string :=
  String (digit (n / 1000)) (String (digit (n / 100))
    (String (digit (n / 10)) (String (digit n) EmptyString))).

(** [t.strftime('%Y-%m')]. *)
Definition strftime_Ym (t : Timestamp) : string :=
  (pad4 (year t) +:+ "-" +:+ pad2 (month t))%string.

(** [str(d)] of a [datetime.date]: the ISO form [YYYY-MM-DD]. *)
Definition isoformat (d : date) : string :=
  (pad4 (d_year d) +:+ "-" +:+ pad2 (d_month d) +:+ "-" +:+ pad2 (d_day d))%string.

Definition midnight (d : date) : Timestamp :=
  mkTimestamp (d_year d) (d_month d) (d_day d) 0.

(** ** Values held by a DataFrame cell *)

Inductive value :=
  | NaN                        (* a missing cell *)
  | Str (s : string)           (* text *)
  | PyDate (d : date)          (* a [datetime.date] object *)
  | Datetime (t : Timestamp)   (* a cell of a datetime column *)
  | NaT.                       (* the missing value of a datetime column *)

#[global] Instance value_eq_dec : EqDecision value.
Proof. solve_decision. Defined.

(** [Series.isna()]. *)
Definition isna (v : value) : bool :=
  match v with
  | NaN | NaT => true
  | _ => false
  end.

(** [Series.dt.strftime('%Y-%m')] on one cell of a datetime column ([NaT]
    has no month). *)
Definition dt_strftime_Ym (v : value) : option string :=
  match v with
  | Datetime t => Some (strftime_Ym t)
  | _ => None
  end.

(** ** Exceptions and results *)

Inductive exn :=
  | FileNotFoundError   (* the file does not exist *)
  | ParserError         (* [pd.read_csv] cannot read the file *)
  | ValueError          (* [pd.to_datetime] met a text that is no date *)
  | KeyError.           (* [drop] of a label that is not in the index *)

#[global] Instance exn_eq_dec : EqDecision exn.
Proof. solve_decision. Defined.

Inductive result (A : Type) :=
  | Ok (a : A)
  | Raise (e : exn).

Arguments Ok {A} a.
Arguments Raise {A} e.

#[global] Instance result_ret : MRet result := fun A a => Ok a.

#[global] Instance result_bind : MBind result := fun A B f m =>
  match m with
  | Ok a => f a
  | Raise e => Raise e
  end.

#[global] Instance result_fmap : FMap result := fun A B f m =>
  match m with
  | Ok a => Ok (f a)
  | Raise e => Raise e
  end.

(** Run [f] over a column, stopping at the first exception. *)
Fixpoint mapR {A B} (f : A -> result B) (l : list A) : result (list B) :=
  match l with
  | [] => Ok []
  | a :: l' => b ← f a; bs ← mapR f l'; mret (b :: bs)
  end.

(** ** Rows, tables, DataFrames *)

Record ExpenseRow := mkExpense
  { Date : string; Category : string;
    Amount_Spent : Z; Budgeted_Amount : Z }.

Record SalaryRow := mkSalary
  { Start_Date : value; End_Date : value; Salary : Z; Pay_Date : value }.

(** A cell of a CSV file as [pd.read_csv] sees it: empty, or a text. *)
Inductive cell :=
  | Empty
  | Text (s : string).

(** A record of a salary file written before the Pay Date column existed. *)
Record OldSalaryRecord := mkOldSalary
  { old_start : cell; old_end : cell; old_salary : Z }.

Record SalaryRecord := mkSalaryRecord
  { rec_start : cell; rec_end : cell; rec_salary : Z; rec_pay : cell }.

Inductive SalaryCsv :=
  | WithoutPayDate (recs : list OldSalaryRecord)
  | WithPayDate (recs : list SalaryRecord).

(** A DataFrame: its column names and its rows, each under its index
    label. *)
Record DataFrame (R : Type) := mkDataFrame
  { columns : list string; rows : list (nat * R) }.

Arguments mkDataFrame {R} columns rows.
Arguments columns {R} d.
Arguments rows {R} d.

(** The rows without their labels, in order. *)
Definition records {R} (df : DataFrame R) : list R := map snd (rows df).

(** The labels [0 .. n-1] of a fresh index. *)
Definition RangeIndex {R} (l : list R) : list (nat * R) :=
  combine (seq 0 (length l)) l.

Definition EXPENSE_COLUMNS : list string :=
  ["Date"; "Category"; "Amount Spent"; "Budgeted Amount"]%string.

Definition SALARY_COLUMNS : list string :=
  ["Start Date"; "End Date"; "Salary"; "Pay Date"]%string.

Definition OLD_SALARY_COLUMNS : list string :=
  ["Start Date"; "End Date"; "Salary"]%string.

Definition csv_columns (t : SalaryCsv) : list string :=
  match t with
  | WithoutPayDate _ => OLD_SALARY_COLUMNS
  | WithPayDate _ => SALARY_COLUMNS
  end.

(** [df[mask]]: the rows the mask keeps, under their labels. *)
Definition select {R} (mask : R -> bool) (df : DataFrame R) : DataFrame R :=
  mkDataFrame (columns df) (List.filter (fun r => mask (snd r)) (rows df)).

(** [df.empty]. *)
Definition empty {R} (df : DataFrame R) : bool :=
  match rows df with
  | [] => true
  | _ => false
  end.

(** [df.index.tolist()]. *)
Definition index {R} (df : DataFrame R) : list nat := map fst (rows df).

(** [df.drop(index)]: without the rows labelled [index]; a label that is
    not in the index is a [KeyError]. *)
Definition drop {R} (i : nat) (df : DataFrame R) : result (DataFrame R) :=
  if bool_decide (i ∈ index df)
  then Ok (mkDataFrame (columns df)
             (List.filter (fun r => negb (Nat.eqb (fst r) i)) (rows df)))
  else Raise KeyError.

(** [df.reset_index(drop=True)]. *)
Definition reset_index {R} (df : DataFrame R) : DataFrame R :=
  mkDataFrame (columns df) (RangeIndex (records df)).

(** [pd.concat([df, entry], ignore_index=True)] of two frames with the
    same columns. *)
Definition concat {R} (df entry : DataFrame R) : DataFrame R :=
  mkDataFrame (columns df) (RangeIndex (records df ++ records entry)).

(** ** The file system and the IO monad *)

Inductive file (T : Type) :=
  | Unreadable
  | Csv (table : T).

Arguments Unreadable {T}.
Arguments Csv {T} table.

(** [DATA_FILE] is [daily_budget_data.csv], [SALARY_FILE] is
    [salary_data.csv]; [None] is a file that does not exist. *)
Record FileSystem := mkFS
  { DATA_FILE : option (file (list ExpenseRow));
    SALARY_FILE : option (file SalaryCsv) }.

(** A computation that reads and writes files and may raise. The state
    reached when an exception is raised is kept. *)
Definition IO (A : Type) : Type := FileSystem -> result A * FileSystem.

#[global] Instance IO_ret : MRet IO := fun A a fs => (Ok a, fs).

#[global] Instance IO_bind : MBind IO := fun A B f m fs =>
  match m fs with
  | (Ok a, fs') => f a fs'
  | (Raise e, fs') => (Raise e, fs')
  end.

Definition lift {A} (r : result A) : IO A := fun fs => (r, fs).

(** [try: body except E: handler]. *)
Definition try_except {A} (body : IO A) (E : exn) (handler : IO A) : IO A :=
  fun fs =>
    match body fs with
    | (Raise e, fs') =>
        if bool_decide (e = E) then handler fs' else (Raise e, fs')
    | r => r
    end.

Definition read_file {T} (get : FileSystem -> option (file T)) : IO T :=
  fun fs =>
    match get fs with
    | None => (Raise FileNotFoundError, fs)
    | Some Unreadable => (Raise ParserError, fs)
    | Some (Csv t) => (Ok t, fs)
    end.

Definition write_DATA_FILE (t : list ExpenseRow) : IO unit :=
  fun fs => (Ok tt, mkFS (Some (Csv t)) (SALARY_FILE fs)).

Definition write_SALARY_FILE (t : SalaryCsv) : IO unit :=
  fun fs => (Ok tt, mkFS (DATA_FILE fs) (Some (Csv t))).

(** [CATEGORY_BUDGET] and [MONTHLY_INCOME]. *)
Definition CATEGORY_BUDGET : list (string * Z) :=
  [("House Rent", 430); ("Shopping", 100); ("Groceries", 50);
   ("Food", 50); ("Transport", 20); ("Entertainment", 100)]%string.

Definition MONTHLY_INCOME : Z := 800.

(** [df.groupby(key)[col].sum()]: one sum per distinct key, the keys in
    ascending order. *)
Definition groupby_sum {R} (key : R -> string) (col : R -> Z)
    (df : DataFrame R) : list (string * Z) :=
  map (fun k =>
         (k, Series_sum
               (map col (List.filter (fun r => String.eqb (key r) k) (records df)))))
      (sorted (unique (map key (records df)))).

(** [df[name] = col] on typed rows: the cells of [col] replace a field,
    row by row; a column that is new is added after the others. *)
Definition assign {R} (name : string) (upd : R -> value -> R) (col : list value)
    (df : DataFrame R) : DataFrame R :=
  mkDataFrame
    (if bool_decide (name ∈ columns df) then columns df else columns df ++ [name])
    (zip_with (fun r v => (fst r, upd (snd r) v)) (rows df) col).

Definition set_Start_Date (r : SalaryRow) (v : value) : SalaryRow :=
  mkSalary v (End_Date r) (Salary r) (Pay_Date r).

Definition set_End_Date (r : SalaryRow) (v : value) : SalaryRow :=
  mkSalary (Start_Date r) v (Salary r) (Pay_Date r).

Definition set_Pay_Date (r : SalaryRow) (v : value) : SalaryRow :=
  mkSalary (Start_Date r) (End_Date r) (Salary r) v.

Definition read_cell (c : cell) : value :=
  match c with
  | Empty => NaN
  | Text s => Str s
  end.

Definition read_record (r : SalaryRecord) : SalaryRow :=
  mkSalary (read_cell (rec_start r)) (read_cell (rec_end r))
           (rec_salary r) (read_cell (rec_pay r)).

(** A record of an older file, before its Pay Date is derived. *)
Definition read_old_record (r : OldSalaryRecord) : SalaryRow :=
  mkSalary (read_cell (old_start r)) (read_cell (old_end r))
           (old_salary r) NaN.

(** The frame [pd.read_csv] builds from a salary file; the rows of an
    older file have no Pay Date yet. *)
Definition read_salary_csv (t : SalaryCsv) : DataFrame SalaryRow :=
  mkDataFrame (csv_columns t)
    (RangeIndex
       match t with
       | WithoutPayDate recs => map read_old_record recs
       | WithPayDate recs => map read_record recs
       end).

Section Tracker.

(** [pd.to_datetime] on one text: its timestamp, or [None] when the
    text is not a date. *)
Variable to_datetime : string -> option Timestamp.

(** The text [to_csv] writes for a timestamp. *)
Variable datetime_csv : Timestamp -> string.

(** The format pandas guesses from a text, when it can guess one, and
    the parse of a text with a given format, [None] when the text does
    not have that format. *)
Variable guess_datetime_format : string -> option string.
Variable strptime : string -> string -> option Timestamp.

(** [pd.to_datetime(series)] on one cell: a text that is not a date
    raises. *)
Definition to_datetime_strict (v : value) : result value :=
  match v with
  | NaN | NaT => Ok NaT
  | Str s =>
      match to_datetime s with
      | Some t => Ok (Datetime t)
      | None => Raise ValueError
      end
  | PyDate d => Ok (Datetime (midnight d))
  | Datetime t => Ok (Datetime t)
  end.

(** The date a cell stands for when it is taken by itself: what
    [to_datetime_strict] returns where it returns, and [NaT] where it
    raises. *)
Definition datetime_of_cell (v : value) : value :=
  match v with
  | NaN | NaT => NaT
  | Str s =>
      match to_datetime s with
      | Some t => Datetime t
      | None => NaT
      end
  | PyDate d => Datetime (midnight d)
  | Datetime t => Datetime t
  end.

(** What [to_csv] writes for a cell. *)
Definition to_csv_cell (v : value) : cell :=
  match v with
  | NaN | NaT => Empty
  | Str s => Text s
  | PyDate d => Text (isoformat d)
  | Datetime t => Text (datetime_csv t)
  end.

Definition to_csv_record (r : SalaryRow) : SalaryRecord :=
  mkSalaryRecord (to_csv_cell (Start_Date r)) (to_csv_cell (End_Date r))
                 (Salary r) (to_csv_cell (Pay_Date r)).

(** *** Loading and saving *)

Definition load_data : IO (DataFrame ExpenseRow) :=
  try_except
    (t ← read_file DATA_FILE;
     mret (mkDataFrame EXPENSE_COLUMNS (RangeIndex t)))
    FileNotFoundError
    (mret (mkDataFrame EXPENSE_COLUMNS [])).

Definition load_salary_data : IO (DataFrame SalaryRow) :=
  try_except
    (t ← read_file SALARY_FILE;
     let df := read_salary_csv t in
     if bool_decide ("Pay Date"%string ∉ columns df) then
       pay ← lift (mapR to_datetime_strict (map End_Date (records df)));
       mret (assign "Pay Date" set_Pay_Date pay df)
     else mret df)
    FileNotFoundError
    (mret (mkDataFrame SALARY_COLUMNS [])).

(** [to_csv(file, index=False)]: the rows without their labels. *)
Definition save_data (df : DataFrame ExpenseRow) : IO unit :=
  write_DATA_FILE (records df).

Definition to_csv_old_record (r : SalaryRow) : OldSalaryRecord :=
  mkOldSalary (to_csv_cell (Start_Date r)) (to_csv_cell (End_Date r)) (Salary r).

(** [to_csv] writes the columns the frame has. *)
Definition save_salary_data (df : DataFrame SalaryRow) : IO unit :=
  write_SALARY_FILE
    (if bool_decide ("Pay Date"%string ∈ columns df)
     then WithPayDate (map to_csv_record (records df))
     else WithoutPayDate (map to_csv_old_record (records df))).

(** *** Appending and deleting *)

Definition add_entry (date category : string) (spent budgeted : Z) : IO unit :=
  df ← load_data;
  let entry := mkDataFrame (columns df) [(0%nat, mkExpense date category spent budgeted)] in
  let df := concat df entry in
  save_data df.

Definition add_salary (start_date end_date : value) (salary : Z)
    (pay_date : value) : IO unit :=
  df ← load_salary_data;
  let entry := mkDataFrame SALARY_COLUMNS
                 [(0%nat, mkSalary start_date end_date salary pay_date)] in
  let df := concat df entry in
  save_salary_data df.

(** The success banners are page output and are left out. *)
Definition delete_confirmation (index : nat) (is_salary : bool) : IO unit :=
  if is_salary then
    salary_df ← load_salary_data;
    salary_df ← lift (reset_index <$> drop index salary_df);
    save_salary_data salary_df
  else
    df ← load_data;
    df ← lift (reset_index <$> drop index df);
    save_data df.

(** *** Salary of a month *)

Definition get_total_salary_for_month (month : string) : IO Z :=
  salary_data ← load_salary_data;
  starts ← lift (mapR to_datetime_strict (map Start_Date (records salary_data)));
  let salary_data := assign "Start Date" set_Start_Date starts salary_data in
  ends ← lift (mapR to_datetime_strict (map End_Date (records salary_data)));
  let salary_data := assign "End Date" set_End_Date ends salary_data in
  let monthly_salary_data :=
    select (fun r => bool_decide (dt_strftime_Ym (Start_Date r) = Some month))
           salary_data in
  mret (Series_sum (map Salary (records monthly_salary_data))).

(** The first cell of a column that is not missing. *)
Definition first_non_null (col : list value) : option value :=
  head (List.filter (fun v => negb (isna v)) col).

(** The format of a column: the one guessed from its first cell that is
    not missing, when that cell is a text and a format can be guessed. *)
Definition column_format (col : list value) : option string :=
  match first_non_null col with
  | Some (Str s) => guess_datetime_format s
  | _ => None
  end.

(** One cell of a column converted with [errors='coerce']: a text is
    parsed with the format of the column, or by itself when the column
    has none; a text that does not parse becomes [NaT]. *)
Definition to_datetime_cell (format : option string) (v : value) : value :=
  match v with
  | NaN | NaT => NaT
  | Str s =>
      match match format with
            | Some f => strptime f s
            | None => to_datetime s
            end with
      | Some t => Datetime t
      | None => NaT
      end
  | PyDate d => Datetime (midnight d)
  | Datetime t => Datetime t
  end.

(** [pd.to_datetime(col, errors='coerce', format=None)]. *)
Definition to_datetime_column (col : list value) : list value :=
  map (to_datetime_cell (column_format col)) col.

(** [convert_to_datetime(df, 'Pay Date')], the only column it is called
    with. *)
Definition convert_to_datetime (df : DataFrame SalaryRow) : DataFrame SalaryRow :=
  assign "Pay Date" set_Pay_Date (to_datetime_column (map Pay_Date (records df))) df.

(** *** The page script *)

Definition daily_months (df : DataFrame ExpenseRow) : list string :=
  sorted (unique (map (fun r => slice7 (Date r)) (records df))).

(** [salary_data] after the conversion of Pay Date and the removal of
    the rows whose Pay Date is [NaT]. *)
Definition valid_salary_data (salary_data : DataFrame SalaryRow) : DataFrame SalaryRow :=
  select (fun r => negb (isna (Pay_Date r))) (convert_to_datetime salary_data).

Definition salary_months (salary_data : DataFrame SalaryRow) : list string :=
  sorted (unique (omap (fun r => dt_strftime_Ym (Pay_Date r))
                       (records (valid_salary_data salary_data)))).

Definition available_months (df : DataFrame ExpenseRow)
    (salary_data : DataFrame SalaryRow) : list string :=
  sorted (elements
            (list_to_set (daily_months df ++ salary_months salary_data) : gset string)).

Definition selected_month_data (df : DataFrame ExpenseRow)
    (month_filter : string) : DataFrame ExpenseRow :=
  select (fun r => startswith (Date r) month_filter) df.

Definition salary_for_month (salary_data : DataFrame SalaryRow)
    (month_filter : string) : DataFrame SalaryRow :=
  select (fun r => bool_decide (dt_strftime_Ym (Pay_Date r) = Some month_filter))
         (valid_salary_data salary_data).

Record Overview := mkOverview
  { total_spent_by_category : list (string * Z);
    total_spent : Z;
    total_budgeted : Z;
    remaining_budget : Z;
    remaining_savings : Z }.

(** The overview block; [None] when the month has no expense row and
    the block is skipped. *)
Definition monthly_overview (monthly_data : DataFrame ExpenseRow) : option Overview :=
  if negb (empty monthly_data) then
    let total_spent_by_category := groupby_sum Category Amount_Spent monthly_data in
    let total_spent := Series_sum (map snd total_spent_by_category) in
    let total_budgeted :=
      Series_sum (map snd (groupby_sum Category Budgeted_Amount monthly_data)) in
    let remaining_budget := sub64 MONTHLY_INCOME total_spent in
    let remaining_savings := sub64 MONTHLY_INCOME total_spent in
    Some (mkOverview total_spent_by_category total_spent total_budgeted
                     remaining_budget remaining_savings)
  else None.

Definition total_monthly_income (month_filter : string) : IO Z :=
  total_salary_for_month ← get_total_salary_for_month month_filter;
  mret (add64 MONTHLY_INCOME total_salary_for_month).

End Tracker.

(** ** A date parser for concrete runs

    The ISO texts [YYYY-MM-DD] are among those [pd.to_datetime] accepts;
    [iso_to_datetime] reads exactly these, and [iso_datetime_csv] writes a
    timestamp the way [to_csv] writes a datetime column whose times are
    all midnight. *)

Definition digit_value (c : ascii) : option nat :=
  let n := nat_of_ascii c in
  if bool_decide (48 <= n <= 57)%nat then Some (n - 48)%nat else None.

Fixpoint digits_value (acc : nat) (l : list ascii) : option nat :=
  match l with
  | [] => Some acc
  | c :: l' => d ← digit_value c; digits_value (10 * acc + d) l'
  end.

Definition is_leap (y : nat) : bool :=
  ((y mod 4 =? 0) && negb (y mod 100 =? 0) || (y mod 400 =? 0))%nat.

Definition days_in_month (y m : nat) : nat :=
  match m with
  | 1 | 3 | 5 | 7 | 8 | 10 | 12 => 31
  | 4 | 6 | 9 | 11 => 30
  | 2 => if is_leap y then 29 else 28
  | _ => 0
  end%nat.

Definition iso_to_datetime (s : string) : option Timestamp :=
  match list_ascii_of_string s with
  | [y1; y2; y3; y4; "-"%char; m1; m2; "-"%char; d1; d2] =>
      y ← digits_value 0 [y1; y2; y3; y4];
      m ← digits_value 0 [m1; m2];
      d ← digits_value 0 [d1; d2];
      if bool_decide (1 <= m <= 12 /\ 1 <= d <= days_in_month y m)%nat
      then Some (mkTimestamp y m d 0)
      else None
  | _ => None
  end.

Definition iso_datetime_csv (t : Timestamp) : string :=
  isoformat (mkDate (year t) (month t) (day t)).

(** The texts [YYYY-MM-DD HH:MM:SS], the time of day counted in
    seconds: the form [to_csv] gives a timestamp that stands in a
    column of objects, as after an append to derived pay dates. *)
Definition iso_to_datetime_seconds (s : string) : option Timestamp :=
  match list_ascii_of_string (String.substring 10 9 s) with
  | [" "%char; h1; h2; ":"%char; m1; m2; ":"%char; s1; s2] =>
      t ← iso_to_datetime (String.substring 0 10 s);
      h ← digits_value 0 [h1; h2];
      m ← digits_value 0 [m1; m2];
      sec ← digits_value 0 [s1; s2];
      if bool_decide (String.length s = 19 /\ h < 24 /\ m < 60 /\ sec < 60)%nat
      then Some (mkTimestamp (year t) (month t) (day t) (3600 * h + 60 * m + sec))
      else None
  | _ => None
  end.

Definition timestamp_str (t : Timestamp) : string :=
  (isoformat (mkDate (year t) (month t) (day t)) +:+ " "
   +:+ pad2 (time_of_day t / 3600) +:+ ":" +:+ pad2 (time_of_day t / 60 mod 60)
   +:+ ":" +:+ pad2 (time_of_day t mod 60))%string.

(** The format guessed from a text of one of the two forms, and the
    parse of a text with one of the two formats. *)
Definition iso_guess_datetime_format (s : string) : option string :=
  if bool_decide (is_Some (iso_to_datetime s)) then Some "%Y-%m-%d"%string
  else if bool_decide (is_Some (iso_to_datetime_seconds s))
       then Some "%Y-%m-%d %H:%M:%S"%string
       else None.

Definition iso_strptime (format s : string) : option Timestamp :=
  if String.eqb format "%Y-%m-%d" then iso_to_datetime s
  else if String.eqb format "%Y-%m-%d %H:%M:%S" then iso_to_datetime_seconds s
       else None.

(** A text of either form parsed by itself. *)
Definition iso_text_to_datetime (s : string) : option Timestamp :=
  format ← iso_guess_datetime_format s; iso_strptime format s.

(** ** The quantities of the specification

    The month universe: the ascending sort of the union of the distinct
    year-month prefixes of the expense dates and the distinct year-months
    of the salary pay dates, the entries whose pay date does not parse
    being discarded. The salary of a month: the salaries of the entries
    whose start date falls in the month. *)

Section Specification.

Variable to_datetime : string -> option Timestamp.
Variable datetime_csv : Timestamp -> string.
Variable guess_datetime_format : string -> option string.
Variable strptime : string -> string -> option Timestamp.

(** The Pay Date of an entry once the Pay Date column of [salaries] is
    converted. *)
Definition converted_pay_date (salaries : list SalaryRow) (r : SalaryRow) : value :=
  to_datetime_cell to_datetime strptime
    (column_format guess_datetime_format (map Pay_Date salaries)) (Pay_Date r).

(** The month the page files an entry under, when its converted Pay
    Date is a date. *)
Definition pay_month (salaries : list SalaryRow) (r : SalaryRow) : option string :=
  dt_strftime_Ym (converted_pay_date salaries r).

(** The months of the entries that keep a date in the conversion. *)
Definition kept_salary_month_set (salaries : list SalaryRow) : gset string :=
  list_to_set (omap (pay_month salaries) salaries).

(** The pay date of an entry is a text that is a date under no format
    and by no parse. *)
Definition never_a_date (s : string) : Prop :=
  to_datetime s = None /\ forall format, strptime format s = None.

(** The timestamp of a date cell, when the cell holds a date. *)
Definition timestamp_of (v : value) : option Timestamp :=
  match datetime_of_cell to_datetime v with
  | Datetime t => Some t
  | _ => None
  end.

(** The cell is missing or is a date: [pd.to_datetime] accepts it. *)
Definition parses (v : value) : bool :=
  match v with
  | Str s => bool_decide (is_Some (to_datetime s))
  | _ => true
  end.

Definition expense_month_set (expenses : list ExpenseRow) : gset string :=
  list_to_set (map (fun e => slice7 (Date e)) expenses).

Definition salary_month_set (salaries : list SalaryRow) : gset string :=
  list_to_set
    (omap (fun s => strftime_Ym <$> timestamp_of (Pay_Date s))
          (List.filter (fun s => bool_decide (is_Some (timestamp_of (Pay_Date s))))
                       salaries)).

Definition month_universe (expenses : list ExpenseRow)
    (salaries : list SalaryRow) : list string :=
  sorted (elements (expense_month_set expenses ∪ salary_month_set salaries)).

(** The entry's start date falls in month [m]. *)
Definition starts_in (m : string) (s : SalaryRow) : bool :=
  bool_decide (strftime_Ym <$> timestamp_of (Start_Date s) = Some m).

(** The salaries of the entries that start in month [m]. *)
Definition salaries_starting_in (m : string) (salaries : list SalaryRow) : list Z :=
  map Salary (List.filter (starts_in m) salaries).

(** A row as it comes back from the CSV file it was written to. *)
Definition csv_round_trip (r : SalaryRow) : SalaryRow :=
  read_record (to_csv_record datetime_csv r).

(** The row the loader builds from a record of an older file. *)
Definition derived_row (r : OldSalaryRecord) : SalaryRow :=
  set_Pay_Date (read_old_record r)
    (datetime_of_cell to_datetime (read_cell (old_end r))).

(** The cell is as [pd.read_csv] returns it: missing, or a text. *)
Definition textual (v : value) : bool :=
  match v with
  | NaN | Str _ => true
  | _ => false
  end.

(** The dates and the amount an entry stands for. *)
Definition entry_of (r : SalaryRow)
    : option Timestamp * option Timestamp * Z * option Timestamp :=
  (timestamp_of (Start_Date r), timestamp_of (End_Date r), Salary r,
   timestamp_of (Pay_Date r)).

(** The derived Pay Date of a row, written to a CSV file, reads back as
    the same date. *)
Definition pay_date_survives_csv (r : SalaryRow) : bool :=
  match Pay_Date r with
  | Datetime t => bool_decide (to_datetime (datetime_csv t) = Some t)
  | _ => true
  end.

(** A date cell reads back from the CSV file as the same date. *)
Definition survives_csv (v : value) : bool :=
  bool_decide (timestamp_of (read_cell (to_csv_cell datetime_csv v)) = timestamp_of v).

Definition entry_survives_csv (r : SalaryRow) : bool :=
  survives_csv (Start_Date r) && survives_csv (End_Date r) && survives_csv (Pay_Date r).

(** The entry of a store at position [i] removed. *)
Definition remove_at {R} (i : nat) (l : list R) : list R :=
  take i l ++ List.skipn (S i) l.

End Specification.

(** ** The page: forms and first selection *)

(** [list(CATEGORY_BUDGET.keys())], the categories of the select box. *)
Definition categories : list string := map fst CATEGORY_BUDGET.

(** [CATEGORY_BUDGET[category]]: a key that is not in the dict is a
    [KeyError]. *)
Definition CATEGORY_BUDGET_getitem (category : string) : result Z :=
  match List.find (fun kv => String.eqb (fst kv) category) CATEGORY_BUDGET with
  | Some kv => Ok (snd kv)
  | None => Raise KeyError
  end.

(** [date.strftime('%Y-%m-%d')]; the years of the date picker have four
    digits. *)
Definition strftime_Ymd (d : date) : string :=
  (pad4 (d_year d) +:+ "-" +:+ pad2 (d_month d) +:+ "-" +:+ pad2 (d_day d))%string.

(** What the Add Entry button does with the values of the form: the
    budget of the category is looked up, the date is formatted, the
    entry is added. *)
Definition add_entry_button (date : date) (category : string) (spent : Z) : IO unit :=
  budgeted ← lift (CATEGORY_BUDGET_getitem category);
  let date_str := strftime_Ymd date in
  add_entry date_str category spent budgeted.

(** The month the select box shows first:
    [index=len(available_months) - 1]. *)
Definition default_month_filter (available_months : list string) : option string :=
  last available_months.

Section Page.

Variable to_datetime : string -> option Timestamp.
Variable datetime_csv : Timestamp -> string.

(** What the Add Salary button does with the dates of the form. *)
Definition add_salary_button (start_date end_date : date) (salary : Z)
    (pay_date : date) : IO unit :=
  add_salary to_datetime datetime_csv
    (PyDate start_date) (PyDate end_date) salary (PyDate pay_date).

End Page.

(** A salary file with a Start Date that is no date. *)
Definition bad_start_date_fs : FileSystem :=
  mkFS None
       (Some (Csv (WithPayDate
          [mkSalaryRecord (Text "mid June") (Text "2024-06-28") 480 (Text "2024-06-29")]))).

(** An expense file that [pd.read_csv] cannot read. *)
Definition unreadable_fs : FileSystem := mkFS (Some Unreadable) None.

(** An older salary file beside one expense of June 2024. *)
Definition old_store_fs : FileSystem :=
  mkFS (Some (Csv [mkExpense "2024-06-01" "Food" 20 50]))
       (Some (Csv (WithoutPayDate
          [mkOldSalary (Text "2024-06-17") (Text "2024-07-01") 500;
           mkOldSalary (Text "2024-07-02") (Text "2024-07-15") 520]))).

(** The store the application writes when the salary of a period paid
    on 2024-08-01 is added to [old_store_fs]. *)
Definition mixed_pay_date_records : list SalaryRecord :=
  [mkSalaryRecord (Text "2024-06-17") (Text "2024-07-01") 500 (Text "2024-07-01 00:00:00");
   mkSalaryRecord (Text "2024-07-02") (Text "2024-07-15") 520 (Text "2024-07-15 00:00:00");
   mkSalaryRecord (Text "2024-07-16") (Text "2024-07-29") 530 (Text "2024-08-01")].

Definition mixed_pay_date_fs : FileSystem :=
  mkFS (Some (Csv [mkExpense "2024-06-01" "Food" 20 50]))
       (Some (Csv (WithPayDate mixed_pay_date_records))).

(** ** Concrete stores *)

(** Three expenses of June 2024 in two categories and one of July; one
    salary period paid in June. *)
Definition june_expenses : list ExpenseRow :=
  [mkExpense "2024-06-01" "Food" 20 50;
   mkExpense "2024-06-03" "Transport" 7 20;
   mkExpense "2024-06-09" "Food" 12 50;
   mkExpense "2024-07-02" "Groceries" 31 50]%string.

Definition june_salary : SalaryRecord :=
  mkSalaryRecord (Text "2024-06-01") (Text "2024-06-14") 500 (Text "2024-06-15").

Definition tracker_fs : FileSystem :=
  mkFS (Some (Csv june_expenses)) (Some (Csv (WithPayDate [june_salary]))).

(** A salary file written before the Pay Date column existed. *)
Definition old_salary_fs : FileSystem :=
  mkFS None
       (Some (Csv (WithoutPayDate
          [mkOldSalary (Text "2024-06-17") (Text "2024-07-01") 500;
           mkOldSalary (Text "2024-07-02") (Text "2024-07-15") 520]))).

(** A salary file whose second record has a Pay Date that is no date and
    whose third has none. *)
Definition odd_pay_date_fs : FileSystem :=
  mkFS None
       (Some (Csv (WithPayDate
          [june_salary;
           mkSalaryRecord (Text "2024-06-15") (Text "2024-06-28") 480 (Text "soon");
           mkSalaryRecord (Text "2024-06-29") (Text "2024-07-12") 510 Empty]))).

(** * Properties *)

(** ** Arithmetic of [int64] sums *)

Lemma wrap64_small (z : Z) : in_int64 z -> wrap64 z = z.
Proof.
  unfold in_int64, wrap64. intros H.
  rewrite Z.mod_small by lia. lia.
Qed.

Lemma wrap64_range (z : Z) : in_int64 (wrap64 z).
Proof.
  unfold in_int64, wrap64.
  pose proof (Z.mod_pos_bound (z + 2 ^ 63) (2 ^ 64)). lia.
Qed.

Lemma wrap64_add_l (a b : Z) : wrap64 (wrap64 a + b) = wrap64 (a + b).
Proof.
  unfold wrap64. f_equal.
  replace ((a + 2 ^ 63) mod 2 ^ 64 - 2 ^ 63 + b + 2 ^ 63)
    with ((a + 2 ^ 63) mod 2 ^ 64 + b) by lia.
  rewrite Zplus_mod_idemp_l. f_equal. lia.
Qed.

Lemma wrap64_add_r (a b : Z) : wrap64 (a + wrap64 b) = wrap64 (a + b).
Proof. rewrite (Z.add_comm a), wrap64_add_l. f_equal. lia. Qed.

Lemma fold_add64 (l : list Z) (a : Z) :
  fold_left add64 l (wrap64 a) = wrap64 (a + Zsum l).
Proof.
  revert a. induction l as [|x l IH]; intros a; simpl.
  - rewrite Z.add_0_r. reflexivity.
  - unfold add64 at 2. rewrite wrap64_add_l, IH. f_equal. lia.
Qed.

(** [Series.sum()] is the mathematical sum reduced to [int64]. *)
Lemma Series_sum_wrap (l : list Z) : Series_sum l = wrap64 (Zsum l).
Proof.
  unfold Series_sum. change 0 with (wrap64 0) at 1.
  rewrite fold_add64. reflexivity.
Qed.

Lemma Series_sum_exact (l : list Z) : in_int64 (Zsum l) -> Series_sum l = Zsum l.
Proof. intros H. rewrite Series_sum_wrap. apply wrap64_small, H. Qed.

Lemma Zsum_app (l1 l2 : list Z) : Zsum (l1 ++ l2) = Zsum l1 + Zsum l2.
Proof. induction l1 as [|x l1 IH]; simpl; [reflexivity | rewrite IH; lia]. Qed.

Lemma Zsum_map_wrap64 (l : list Z) : wrap64 (Zsum (map wrap64 l)) = wrap64 (Zsum l).
Proof.
  induction l as [|x l IH]; simpl; [reflexivity|].
  rewrite wrap64_add_l. rewrite <- wrap64_add_r, IH, wrap64_add_r. reflexivity.
Qed.

(** ** The order on strings *)

Lemma ascii_compare_trans_lt (a b c : ascii) :
  Ascii.compare a b = Lt -> Ascii.compare b c = Lt -> Ascii.compare a c = Lt.
Proof.
  unfold Ascii.compare. rewrite !N.compare_lt_iff. lia.
Qed.

Lemma ascii_compare_refl (a : ascii) : Ascii.compare a a = Eq.
Proof. unfold Ascii.compare. apply N.compare_refl. Qed.

Lemma string_compare_refl (s : string) : String.compare s s = Eq.
Proof.
  induction s as [|a s IH]; simpl; [reflexivity|].
  rewrite ascii_compare_refl. exact IH.
Qed.

Lemma string_compare_trans_lt (s1 : string) :
  forall s2 s3, String.compare s1 s2 = Lt -> String.compare s2 s3 = Lt ->
                String.compare s1 s3 = Lt.
Proof.
  induction s1 as [|a s1 IH]; intros [|b s2] [|c s3]; simpl; try congruence.
  destruct (Ascii.compare a b) eqn:Hab; try discriminate;
    destruct (Ascii.compare b c) eqn:Hbc; try discriminate; intros H1 H2.
  - apply Ascii.compare_eq_iff in Hab, Hbc. subst.
    rewrite ascii_compare_refl. eauto.
  - apply Ascii.compare_eq_iff in Hab. subst. rewrite Hbc. reflexivity.
  - apply Ascii.compare_eq_iff in Hbc. subst. rewrite Hab. reflexivity.
  - rewrite (ascii_compare_trans_lt _ _ _ Hab Hbc). reflexivity.
Qed.

Lemma str_le_lt_eq (a b : string) : str_le a b <-> str_lt a b \/ a = b.
Proof.
  unfold str_le, str_lt, String.leb, String.ltb. split.
  - destruct (String.compare a b) eqn:H; try discriminate; intros _.
    + right. apply String.compare_eq_iff, H.
    + left. reflexivity.
  - intros [H | ->].
    + destruct (String.compare a b); try discriminate; reflexivity.
    + rewrite string_compare_refl. reflexivity.
Qed.

#[global] Instance str_lt_trans : Transitive str_lt.
Proof.
  intros a b c. unfold str_lt, String.ltb.
  destruct (String.compare a b) eqn:H1; try discriminate.
  destruct (String.compare b c) eqn:H2; try discriminate.
  rewrite (string_compare_trans_lt _ _ _ H1 H2). reflexivity.
Qed.

#[global] Instance str_le_trans : Transitive str_le.
Proof.
  intros a b c. rewrite !str_le_lt_eq. intros [H1 | ->] [H2 | ->]; eauto.
  left. etransitivity; eassumption.
Qed.

#[global] Instance str_le_total : Total str_le.
Proof. intros a b. apply String.leb_total. Qed.

#[global] Instance str_le_antisym : AntiSymm (=) str_le.
Proof. intros a b. apply String.leb_antisym. Qed.

(** ** [sorted] and [unique] *)

Lemma sorted_perm (l : list string) : sorted l ≡ₚ l.
Proof. apply merge_sort_Permutation. Qed.

Lemma sorted_le (l : list string) : StronglySorted str_le (sorted l).
Proof. apply StronglySorted_merge_sort; apply _. Qed.

Lemma elem_of_sorted (l : list string) (x : string) : x ∈ sorted l <-> x ∈ l.
Proof. rewrite sorted_perm. reflexivity. Qed.

Lemma StronglySorted_le_lt (l : list string) :
  NoDup l -> StronglySorted str_le l -> StronglySorted str_lt l.
Proof.
  induction 2 as [|x l Hs IH Hx]; constructor.
  - apply IH. apply NoDup_cons in H. tauto.
  - apply NoDup_cons in H. destruct H as [Hnin _].
    rewrite Forall_forall in Hx |- *. intros y Hy.
    destruct (proj1 (str_le_lt_eq x y) (Hx y Hy)) as [Hlt | ->]; tauto.
Qed.

(** A sorted list without repetition is strictly ascending. *)
Lemma sorted_lt (l : list string) : NoDup l -> StronglySorted str_lt (sorted l).
Proof.
  intros H. apply StronglySorted_le_lt; [|apply sorted_le].
  rewrite sorted_perm. exact H.
Qed.

Lemma elem_of_unique_from (l seen : list string) (x : string) :
  x ∈ unique_from seen l <-> x ∈ l /\ x ∉ seen.
Proof.
  revert seen. induction l as [|y l IH]; intros seen; simpl.
  - rewrite elem_of_nil. tauto.
  - case_bool_decide as Hy.
    + rewrite IH, elem_of_cons. split; [tauto|].
      intros [[-> | H] Hn]; tauto.
    + rewrite elem_of_cons, IH, !elem_of_cons.
      destruct (decide (x = y)) as [-> | Hne]; tauto.
Qed.

Lemma elem_of_unique (l : list string) (x : string) : x ∈ unique l <-> x ∈ l.
Proof.
  unfold unique. rewrite elem_of_unique_from, elem_of_nil. tauto.
Qed.

Lemma NoDup_unique_from (l seen : list string) : NoDup (unique_from seen l).
Proof.
  revert seen. induction l as [|y l IH]; intros seen; simpl.
  - constructor.
  - case_bool_decide as Hy; [apply IH|].
    constructor; [|apply IH].
    rewrite elem_of_unique_from, elem_of_cons. tauto.
Qed.

Lemma NoDup_unique (l : list string) : NoDup (unique l).
Proof. apply NoDup_unique_from. Qed.

(** ** Frames *)

Lemma elem_of_map {A B} (f : A -> B) (l : list A) (y : B) :
  y ∈ map f l <-> exists x, y = f x /\ x ∈ l.
Proof. apply (list_elem_of_fmap f). Qed.

Lemma elem_of_bfilter {A} (p : A -> bool) (l : list A) (x : A) :
  x ∈ List.filter p l <-> p x = true /\ x ∈ l.
Proof. rewrite !list_elem_of_In, filter_In. tauto. Qed.

Lemma RangeIndex_records {R} (l : list R) : map snd (RangeIndex l) = l.
Proof.
  unfold RangeIndex. generalize 0%nat.
  induction l as [|x l IH]; intros n; simpl; [reflexivity|].
  f_equal. apply IH.
Qed.

Lemma RangeIndex_index {R} (l : list R) : map fst (RangeIndex l) = seq 0 (length l).
Proof.
  unfold RangeIndex. generalize 0%nat.
  induction l as [|x l IH]; intros n; simpl; [reflexivity|].
  f_equal. apply IH.
Qed.

Lemma records_select {R} (mask : R -> bool) (df : DataFrame R) :
  records (select mask df) = List.filter mask (records df).
Proof.
  unfold records, select. simpl.
  induction (rows df) as [|[i r] l IH]; simpl; [reflexivity|].
  destruct (mask r); simpl; rewrite IH; reflexivity.
Qed.

Lemma rows_assign_map {R} (upd : R -> value -> R) (g : R -> value)
    (l : list (nat * R)) :
  zip_with (fun r v => (fst r, upd (snd r) v)) l (map g (map snd l))
  = map (fun r => (fst r, upd (snd r) (g (snd r)))) l.
Proof. induction l as [|r l IH]; simpl; [reflexivity | rewrite IH; reflexivity]. Qed.

Lemma records_assign_map {R} (name : string) (upd : R -> value -> R)
    (g : R -> value) (df : DataFrame R) :
  records (assign name upd (map g (records df)) df)
  = map (fun r => upd r (g r)) (records df).
Proof.
  unfold records, assign. simpl. rewrite rows_assign_map, !map_map. reflexivity.
Qed.

(** ** C1: the month universe *)

Section MonthUniverseFacts.

Variable to_datetime : string -> option Timestamp.
Variable guess_datetime_format : string -> option string.
Variable strptime : string -> string -> option Timestamp.

Lemma to_datetime_column_rows (l : list SalaryRow) :
  to_datetime_column to_datetime guess_datetime_format strptime (map Pay_Date l)
  = map (converted_pay_date to_datetime guess_datetime_format strptime l) l.
Proof. unfold to_datetime_column. rewrite map_map. reflexivity. Qed.

Lemma records_convert_to_datetime (sd : DataFrame SalaryRow) :
  records (convert_to_datetime to_datetime guess_datetime_format strptime sd)
  = map (fun r => set_Pay_Date r
                    (converted_pay_date to_datetime guess_datetime_format strptime
                       (records sd) r))
        (records sd).
Proof.
  unfold convert_to_datetime. rewrite to_datetime_column_rows.
  apply records_assign_map.
Qed.

Lemma rows_convert_to_datetime (sd : DataFrame SalaryRow) :
  rows (convert_to_datetime to_datetime guess_datetime_format strptime sd)
  = map (fun r => (fst r, set_Pay_Date (snd r)
                            (converted_pay_date to_datetime guess_datetime_format strptime
                               (records sd) (snd r))))
        (rows sd).
Proof.
  unfold convert_to_datetime. rewrite to_datetime_column_rows.
  unfold assign, records. cbn [rows].
  apply (rows_assign_map set_Pay_Date
           (converted_pay_date to_datetime guess_datetime_format strptime
              (map snd (rows sd)))).
Qed.

(** A converted Pay Date is a timestamp or [NaT]. *)
Lemma to_datetime_cell_cases (format : option string) (v : value) :
  to_datetime_cell to_datetime strptime format v = NaT
  \/ exists t, to_datetime_cell to_datetime strptime format v = Datetime t.
Proof.
  destruct v as [|s| | |]; simpl; eauto.
  destruct (match format with Some f => strptime f s | None => to_datetime s end); eauto.
Qed.

Lemma isna_converted (format : option string) (v : value) :
  negb (isna (to_datetime_cell to_datetime strptime format v))
  = bool_decide (is_Some (dt_strftime_Ym (to_datetime_cell to_datetime strptime format v))).
Proof.
  destruct (to_datetime_cell_cases format v) as [-> | [t ->]]; reflexivity.
Qed.

Lemma elem_of_daily_months (df : DataFrame ExpenseRow) (m : string) :
  m ∈ daily_months df <-> exists e, e ∈ records df /\ slice7 (Date e) = m.
Proof.
  unfold daily_months. rewrite elem_of_sorted, elem_of_unique, elem_of_map.
  split; intros (e & H1 & H2); exists e; auto.
Qed.

Lemma elem_of_salary_months (sd : DataFrame SalaryRow) (m : string) :
  m ∈ salary_months to_datetime guess_datetime_format strptime sd <->
  exists s, s ∈ records sd
            /\ pay_month to_datetime guess_datetime_format strptime (records sd) s = Some m.
Proof.
  unfold salary_months, valid_salary_data.
  rewrite elem_of_sorted, elem_of_unique, records_select.
  rewrite records_convert_to_datetime. unfold pay_month.
  set (c := converted_pay_date to_datetime guess_datetime_format strptime (records sd)).
  clearbody c. generalize (records sd) as l. intros l.
  rewrite list_elem_of_omap. split.
  - intros (r & Hr & Hm).
    apply elem_of_bfilter in Hr. destruct Hr as [_ Hr].
    apply elem_of_map in Hr. destruct Hr as (s & -> & Hs). simpl in Hm.
    exists s. split; assumption.
  - intros (s & Hs & Hm).
    exists (set_Pay_Date s (c s)). simpl. split; [|exact Hm].
    apply elem_of_bfilter. simpl. split.
    + destruct (c s); simpl in *; try discriminate. reflexivity.
    + apply elem_of_map. exists s. auto.
Qed.

Lemma elem_of_kept_salary_month_set (salaries : list SalaryRow) (m : string) :
  m ∈ kept_salary_month_set to_datetime guess_datetime_format strptime salaries <->
  exists s, s ∈ salaries
            /\ pay_month to_datetime guess_datetime_format strptime salaries s = Some m.
Proof.
  unfold kept_salary_month_set. rewrite elem_of_list_to_set, list_elem_of_omap.
  reflexivity.
Qed.

Lemma elem_of_salary_month_set (salaries : list SalaryRow) (m : string) :
  m ∈ salary_month_set to_datetime salaries <->
  exists s t, s ∈ salaries /\ timestamp_of to_datetime (Pay_Date s) = Some t
              /\ strftime_Ym t = m.
Proof.
  unfold salary_month_set. rewrite elem_of_list_to_set, list_elem_of_omap.
  setoid_rewrite elem_of_bfilter. split.
  - intros (s & (_ & Hs) & Hm).
    destruct (timestamp_of to_datetime (Pay_Date s)) as [t|] eqn:E;
      simpl in Hm; try discriminate.
    exists s, t. repeat split; auto. congruence.
  - intros (s & t & Hs & Ht & Hm). exists s. split.
    + split; [|exact Hs]. apply bool_decide_eq_true. eauto.
    + rewrite Ht. simpl. congruence.
Qed.

Lemma elem_of_expense_month_set (expenses : list ExpenseRow) (m : string) :
  m ∈ expense_month_set expenses <->
  exists e, e ∈ expenses /\ slice7 (Date e) = m.
Proof.
  unfold expense_month_set. rewrite elem_of_list_to_set, elem_of_map.
  split; intros (e & H1 & H2); exists e; auto.
Qed.

(** The months offered: the sorted union of the expense months and of
    the months of the pay dates the conversion of the column keeps. *)
Lemma available_months_offered
    (df : DataFrame ExpenseRow) (salary_data : DataFrame SalaryRow) :
  available_months to_datetime guess_datetime_format strptime df salary_data
  = sorted (elements
      (expense_month_set (records df)
       ∪ kept_salary_month_set to_datetime guess_datetime_format strptime
           (records salary_data))).
Proof.
  unfold available_months. do 2 f_equal.
  apply set_eq. intros m.
  rewrite elem_of_list_to_set, elem_of_app, elem_of_union.
  rewrite elem_of_daily_months, elem_of_salary_months.
  rewrite elem_of_expense_month_set, elem_of_kept_salary_month_set. reflexivity.
Qed.

Lemma elem_of_available_months
    (df : DataFrame ExpenseRow) (salary_data : DataFrame SalaryRow) (m : string) :
  m ∈ available_months to_datetime guess_datetime_format strptime df salary_data <->
  (exists e, e ∈ records df /\ slice7 (Date e) = m)
  \/ (exists s, s ∈ records salary_data
                /\ pay_month to_datetime guess_datetime_format strptime
                     (records salary_data) s = Some m).
Proof.
  rewrite available_months_offered, elem_of_sorted, elem_of_elements, elem_of_union.
  rewrite elem_of_expense_month_set, elem_of_kept_salary_month_set. reflexivity.
Qed.

End MonthUniverseFacts.

(** C1. The claim: the months offered are the sorted union of the
    [YYYY-MM] prefixes of the expense dates and of the months of the
    salary pay dates, only the entries whose pay date does not parse
    being left out. The code leaves out more. On the store the
    application itself writes when a salary is added to an older file
    (the derived pay dates written with their time of day, the new one
    as a date), every pay date parses, the specification's month
    universe is 2024-06, 2024-07, 2024-08, and the page offers 2024-06
    and 2024-07 only: the pay date 2024-08-01 does not have the format
    guessed from the first cell of its column and becomes [NaT]. *)
Theorem available_months_drops_a_valid_pay_date :
  let after :=
    snd (add_salary_button iso_text_to_datetime timestamp_str
           (mkDate 2024 7 16) (mkDate 2024 7 29) 530 (mkDate 2024 8 1) old_store_fs) in
  exists df sd,
    after = mixed_pay_date_fs
    /\ load_data after = (Ok df, after)
    /\ load_salary_data iso_text_to_datetime after = (Ok sd, after)
    /\ map Pay_Date (records sd)
       = [Str "2024-07-01 00:00:00"; Str "2024-07-15 00:00:00"; Str "2024-08-01"]
    /\ map (fun r => timestamp_of iso_text_to_datetime (Pay_Date r)) (records sd)
       = [Some (mkTimestamp 2024 7 1 0); Some (mkTimestamp 2024 7 15 0);
          Some (mkTimestamp 2024 8 1 0)]
    /\ month_universe iso_text_to_datetime (records df) (records sd)
       = ["2024-06"; "2024-07"; "2024-08"]%string
    /\ available_months iso_text_to_datetime iso_guess_datetime_format iso_strptime df sd
       = ["2024-06"; "2024-07"]%string.
Proof.
  eexists; eexists. split; [reflexivity|]. split; [reflexivity|].
  split; [reflexivity|]. split; [reflexivity|]. split; [reflexivity|].
  split; vm_compute; reflexivity.
Qed.

(** ** The stores *)

Section StoreFacts.

Variable to_datetime : string -> option Timestamp.
Variable datetime_csv : Timestamp -> string.


Lemma load_data_run (fs : FileSystem) :
  load_data fs =
  match DATA_FILE fs with
  | None => (Ok (mkDataFrame EXPENSE_COLUMNS []), fs)
  | Some Unreadable => (Raise ParserError, fs)
  | Some (Csv t) => (Ok (mkDataFrame EXPENSE_COLUMNS (RangeIndex t)), fs)
  end.
Proof.
  unfold load_data, try_except, mbind, IO_bind, read_file, mret, IO_ret.
  destruct (DATA_FILE fs) as [[|t]|]; reflexivity.
Qed.

Lemma strict_coerce (v : value) :
  parses to_datetime v = true ->
  to_datetime_strict to_datetime v = Ok (datetime_of_cell to_datetime v).
Proof.
  destruct v; simpl; try reflexivity.
  intros H. apply bool_decide_eq_true in H. destruct H as [t ->]. reflexivity.
Qed.

Lemma strict_not_parsed (v : value) :
  parses to_datetime v = false ->
  to_datetime_strict to_datetime v = Raise ValueError.
Proof.
  destruct v; simpl; try discriminate.
  intros H. apply bool_decide_eq_false in H.
  destruct (to_datetime s); [exfalso; eauto | reflexivity].
Qed.

Lemma mapR_strict_coerce (l : list value) :
  forallb (parses to_datetime) l = true ->
  mapR (to_datetime_strict to_datetime) l = Ok (map (datetime_of_cell to_datetime) l).
Proof.
  induction l as [|v l IH]; simpl; [reflexivity|].
  intros H. apply andb_true_iff in H. destruct H as [Hv Hl].
  rewrite (strict_coerce v Hv), (IH Hl). reflexivity.
Qed.

Lemma mapR_strict_not_parsed (l : list value) :
  forallb (parses to_datetime) l = false ->
  mapR (to_datetime_strict to_datetime) l = Raise ValueError.
Proof.
  induction l as [|v l IH]; simpl; [discriminate|].
  destruct (parses to_datetime v) eqn:Hv; simpl; intros H.
  - rewrite (strict_coerce v Hv), (IH H). reflexivity.
  - rewrite (strict_not_parsed v Hv). reflexivity.
Qed.

(** The rows of an older file once their Pay Date is derived. *)
Lemma derive_Pay_Date_rows (recs : list OldSalaryRecord) :
  records
    (assign "Pay Date" set_Pay_Date
       (map (datetime_of_cell to_datetime)
            (map End_Date (records (read_salary_csv (WithoutPayDate recs)))))
       (read_salary_csv (WithoutPayDate recs)))
  = map (fun r => set_Pay_Date (read_old_record r)
                    (datetime_of_cell to_datetime (read_cell (old_end r))))
        recs.
Proof.
  rewrite map_map.
  rewrite (records_assign_map _ set_Pay_Date
             (fun r => datetime_of_cell to_datetime (End_Date r))).
  unfold records, read_salary_csv. simpl.
  rewrite RangeIndex_records, map_map. reflexivity.
Qed.

Lemma load_salary_data_run (fs : FileSystem) :
  load_salary_data to_datetime fs =
  match SALARY_FILE fs with
  | None => (Ok (mkDataFrame SALARY_COLUMNS []), fs)
  | Some Unreadable => (Raise ParserError, fs)
  | Some (Csv (WithPayDate recs)) =>
      (Ok (mkDataFrame SALARY_COLUMNS (RangeIndex (map read_record recs))), fs)
  | Some (Csv (WithoutPayDate recs)) =>
      if forallb (fun r => parses to_datetime (read_cell (old_end r))) recs
      then (Ok (assign "Pay Date" set_Pay_Date
                  (map (datetime_of_cell to_datetime)
                       (map End_Date (records (read_salary_csv (WithoutPayDate recs)))))
                  (read_salary_csv (WithoutPayDate recs))), fs)
      else (Raise ValueError, fs)
  end.
Proof.
  unfold load_salary_data, try_except, mbind, IO_bind, read_file, mret, IO_ret.
  destruct (SALARY_FILE fs) as [[|[recs|recs]]|]; try reflexivity.
  cbn [read_salary_csv columns csv_columns].
  rewrite bool_decide_eq_true_2 by (vm_compute; intros H; repeat (inversion H as [|? ? ? H']; clear H; rename H' into H)).
  unfold lift.
  assert (Hcol : map End_Date (records (read_salary_csv (WithoutPayDate recs)))
                 = map (fun r => read_cell (old_end r)) recs).
  { unfold records, read_salary_csv. simpl.
    rewrite RangeIndex_records, map_map. reflexivity. }
  fold (read_salary_csv (WithoutPayDate recs)).
  change (mkDataFrame OLD_SALARY_COLUMNS (RangeIndex (map read_old_record recs)))
    with (read_salary_csv (WithoutPayDate recs)).
  rewrite Hcol.
  destruct (forallb (fun r => parses to_datetime (read_cell (old_end r))) recs) eqn:Hp.
  - rewrite mapR_strict_coerce; [reflexivity|].
    rewrite forallb_forall in Hp |- *. intros v Hv.
    apply in_map_iff in Hv. destruct Hv as (r & <- & Hr). auto.
  - rewrite mapR_strict_not_parsed; [reflexivity|].
    apply not_true_is_false. intros H. rewrite forallb_forall in H.
    assert (forallb (fun r => parses to_datetime (read_cell (old_end r))) recs = true);
      [|congruence].
    apply forallb_forall. intros r Hr. apply H, in_map_iff. eauto.
Qed.

(** *** Loading *)

(** C6. For both stores, when the file does not exist, loading returns
    an empty collection with the store's columns (Date, Category,
    Amount Spent, Budgeted Amount for expenses; Start Date, End Date,
    Salary, Pay Date for salaries) and raises nothing; the missing file
    is the only failure the loaders recover from: a file that cannot be
    read, or an older salary file with an end date that is no date,
    makes the load raise. *)
Theorem load_recovers_only_missing_file (fs : FileSystem) :
  match DATA_FILE fs with
  | None =>
      load_data fs
      = (Ok (mkDataFrame ["Date"; "Category"; "Amount Spent"; "Budgeted Amount"]%string []), fs)
  | Some Unreadable => load_data fs = (Raise ParserError, fs)
  | Some (Csv t) => exists df, load_data fs = (Ok df, fs) /\ records df = t
  end
  /\
  match SALARY_FILE fs with
  | None =>
      load_salary_data to_datetime fs
      = (Ok (mkDataFrame ["Start Date"; "End Date"; "Salary"; "Pay Date"]%string []), fs)
  | Some Unreadable => load_salary_data to_datetime fs = (Raise ParserError, fs)
  | Some (Csv (WithPayDate recs)) =>
      exists df, load_salary_data to_datetime fs = (Ok df, fs) /\ records df = map read_record recs
  | Some (Csv (WithoutPayDate recs)) =>
      if forallb (fun r => parses to_datetime (read_cell (old_end r))) recs
      then exists df, load_salary_data to_datetime fs = (Ok df, fs)
      else load_salary_data to_datetime fs = (Raise ValueError, fs)
  end.
Proof.
  rewrite load_data_run, load_salary_data_run. split.
  - destruct (DATA_FILE fs) as [[|t]|]; try reflexivity.
    eexists. split; [reflexivity|]. apply RangeIndex_records.
  - destruct (SALARY_FILE fs) as [[|[recs|recs]]|]; try reflexivity.
    + destruct (forallb _ recs); [eexists|]; reflexivity.
    + eexists. split; [reflexivity|]. apply RangeIndex_records.
Qed.

Lemma RangeIndex_map {A B} (f : A -> B) (l : list A) :
  map (fun r => (fst r, f (snd r))) (RangeIndex l) = RangeIndex (map f l).
Proof.
  unfold RangeIndex. rewrite length_map. generalize 0%nat.
  induction l as [|x l IH]; intros n; simpl; [reflexivity|].
  f_equal. apply IH.
Qed.

Lemma load_data_inv (fs fs' : FileSystem) (df : DataFrame ExpenseRow) :
  load_data fs = (Ok df, fs') ->
  fs' = fs /\ columns df = EXPENSE_COLUMNS /\ rows df = RangeIndex (records df)
  /\ match DATA_FILE fs with
     | None => records df = []
     | Some Unreadable => False
     | Some (Csv t) => records df = t
     end.
Proof.
  rewrite load_data_run.
  destruct (DATA_FILE fs) as [[|t]|]; intros [= <- <-]; try discriminate.
  - unfold records. simpl. rewrite RangeIndex_records. auto.
  - auto.
Qed.

Lemma load_salary_data_inv (fs fs' : FileSystem) (sd : DataFrame SalaryRow) :
  load_salary_data to_datetime fs = (Ok sd, fs') ->
  fs' = fs /\ columns sd = SALARY_COLUMNS /\ rows sd = RangeIndex (records sd)
  /\ match SALARY_FILE fs with
     | None => records sd = []
     | Some Unreadable => False
     | Some (Csv (WithPayDate recs)) => records sd = map read_record recs
     | Some (Csv (WithoutPayDate recs)) =>
         forallb (fun r => parses to_datetime (read_cell (old_end r))) recs = true
         /\ records sd = map (derived_row to_datetime) recs
     end.
Proof.
  rewrite load_salary_data_run.
  destruct (SALARY_FILE fs) as [[|[recs|recs]]|]; try discriminate.
  - destruct (forallb _ recs) eqn:Hp; try discriminate.
    intros [= <- <-]. split; [reflexivity|]. split; [reflexivity|].
    pose proof (derive_Pay_Date_rows recs) as Hrec.
    split; [|split; [reflexivity | exact Hrec]].
    rewrite Hrec. unfold assign, read_salary_csv. cbn [rows columns].
    rewrite map_map.
    rewrite (rows_assign_map set_Pay_Date
               (fun r => datetime_of_cell to_datetime (End_Date r))).
    rewrite (RangeIndex_map
               (fun r => set_Pay_Date r (datetime_of_cell to_datetime (End_Date r)))).
    rewrite map_map. reflexivity.
  - intros [= <- <-]. unfold records. simpl. rewrite RangeIndex_records. auto.
  - intros [= <- <-]. auto.
Qed.

Lemma load_salary_data_state (fs : FileSystem) : snd (load_salary_data to_datetime fs) = fs.
Proof.
  rewrite load_salary_data_run.
  destruct (SALARY_FILE fs) as [[|[recs|recs]]|]; try reflexivity.
  destruct (forallb _ recs); reflexivity.
Qed.

Lemma load_data_state (fs : FileSystem) : snd (load_data fs) = fs.
Proof.
  rewrite load_data_run. destruct (DATA_FILE fs) as [[|t]|]; reflexivity.
Qed.

Lemma coerce_idemp (v : value) :
  datetime_of_cell to_datetime (datetime_of_cell to_datetime v)
  = datetime_of_cell to_datetime v.
Proof. destruct v; simpl; try reflexivity. destruct (to_datetime s); reflexivity. Qed.

Lemma timestamp_of_coerce (v : value) :
  timestamp_of to_datetime (datetime_of_cell to_datetime v)
  = timestamp_of to_datetime v.
Proof. unfold timestamp_of. rewrite coerce_idemp. reflexivity. Qed.

(** C5. For every salary file without the Pay Date column (its end
    dates being dates), loading gives each record the Pay Date of its
    End Date, in memory only: the load leaves the file as it was, and a
    second load derives the same pay dates again. *)
Theorem load_derives_pay_date_in_memory
    (fs : FileSystem) (recs : list OldSalaryRecord) :
  SALARY_FILE fs = Some (Csv (WithoutPayDate recs)) ->
  forallb (fun r => parses to_datetime (read_cell (old_end r))) recs = true ->
  exists df,
    load_salary_data to_datetime fs = (Ok df, fs)
    /\ columns df = ["Start Date"; "End Date"; "Salary"; "Pay Date"]%string
    /\ records df
       = map (fun r => mkSalary (read_cell (old_start r)) (read_cell (old_end r))
                         (old_salary r)
                         (datetime_of_cell to_datetime (read_cell (old_end r))))
             recs
    /\ Forall (fun r => timestamp_of to_datetime (Pay_Date r)
                        = timestamp_of to_datetime (End_Date r)) (records df)
    /\ SALARY_FILE (snd (load_salary_data to_datetime fs)) = Some (Csv (WithoutPayDate recs))
    /\ (load_salary_data to_datetime ≫= fun _ => load_salary_data to_datetime) fs = (Ok df, fs).
Proof.
  intros Hfile Hp.
  destruct (load_salary_data to_datetime fs) as [r fs'] eqn:Hload.
  pose proof Hload as Hrun. rewrite load_salary_data_run, Hfile, Hp in Hrun.
  injection Hrun as <- <-.
  eexists. split; [reflexivity|].
  pose proof (load_salary_data_inv _ _ _ Hload) as (_ & Hcols & _ & Hrec).
  rewrite Hfile in Hrec. destruct Hrec as [_ Hrec].
  split; [exact Hcols|]. split; [exact Hrec|]. split.
  - rewrite Hrec. apply Forall_forall. intros r Hr.
    apply elem_of_map in Hr. destruct Hr as (o & -> & _). simpl.
    apply timestamp_of_coerce.
  - split; [exact Hfile|].
    unfold mbind, IO_bind. rewrite Hload. exact Hload.
Qed.

(** *** Appending *)

Lemma records_concat {R} (df entry : DataFrame R) :
  records (concat df entry) = records df ++ records entry.
Proof. unfold records at 1, concat. simpl. apply RangeIndex_records. Qed.

Lemma add_entry_run (fs : FileSystem) (df : DataFrame ExpenseRow)
    (date category : string) (spent budgeted : Z) :
  load_data fs = (Ok df, fs) ->
  add_entry date category spent budgeted fs
  = (Ok tt, mkFS (Some (Csv (records df ++ [mkExpense date category spent budgeted])))
                 (SALARY_FILE fs)).
Proof.
  intros H. unfold add_entry, mbind, IO_bind. rewrite H.
  unfold save_data, write_DATA_FILE. rewrite records_concat. reflexivity.
Qed.

Lemma save_salary_data_run (df : DataFrame SalaryRow) (fs : FileSystem) :
  columns df = SALARY_COLUMNS ->
  save_salary_data datetime_csv df fs
  = (Ok tt, mkFS (DATA_FILE fs)
              (Some (Csv (WithPayDate (map (to_csv_record datetime_csv) (records df)))))).
Proof.
  intros H. unfold save_salary_data, write_SALARY_FILE. rewrite H. reflexivity.
Qed.

Lemma save_salary_data_frame (df : DataFrame SalaryRow) (fs : FileSystem) :
  DATA_FILE (snd (save_salary_data datetime_csv df fs)) = DATA_FILE fs.
Proof. reflexivity. Qed.

Lemma add_salary_run (fs : FileSystem) (sd : DataFrame SalaryRow)
    (start_date end_date : value) (salary : Z) (pay_date : value) :
  load_salary_data to_datetime fs = (Ok sd, fs) ->
  add_salary to_datetime datetime_csv start_date end_date salary pay_date fs
  = (Ok tt, mkFS (DATA_FILE fs)
              (Some (Csv (WithPayDate
                 (map (to_csv_record datetime_csv)
                      (records sd ++ [mkSalary start_date end_date salary pay_date])))))).
Proof.
  intros H. unfold add_salary, mbind, IO_bind. rewrite H.
  pose proof (load_salary_data_inv _ _ _ H) as (_ & Hcols & _).
  rewrite save_salary_data_run by (unfold concat; cbn [columns]; exact Hcols).
  rewrite records_concat. reflexivity.
Qed.

Lemma read_to_csv_textual (v : value) :
  textual v = true -> read_cell (to_csv_cell datetime_csv v) = v.
Proof. destruct v; simpl; intros H; try discriminate; reflexivity. Qed.

Lemma textual_read_cell (c : cell) : textual (read_cell c) = true.
Proof. destruct c; reflexivity. Qed.

Lemma csv_round_trip_textual (r : SalaryRow) :
  textual (Start_Date r) = true -> textual (End_Date r) = true ->
  textual (Pay_Date r) = true ->
  csv_round_trip datetime_csv r = r.
Proof.
  intros H1 H2 H3. destruct r as [s e z p]. unfold csv_round_trip, read_record.
  simpl in *. rewrite !read_to_csv_textual by assumption. reflexivity.
Qed.

Lemma csv_round_trip_read_record (r : SalaryRecord) :
  csv_round_trip datetime_csv (read_record r) = read_record r.
Proof. apply csv_round_trip_textual; apply textual_read_cell. Qed.

Lemma to_csv_read_cell (c : cell) : to_csv_cell datetime_csv (read_cell c) = c.
Proof. destruct c; reflexivity. Qed.

Lemma to_csv_record_round_trip (r : SalaryRow) :
  to_csv_record datetime_csv (csv_round_trip datetime_csv r)
  = to_csv_record datetime_csv r.
Proof.
  unfold csv_round_trip, to_csv_record, read_record. simpl.
  rewrite !to_csv_read_cell. reflexivity.
Qed.

(** A derived row means the same entry once written and read back, as
    long as the text of its pay date parses back to that date. *)
Lemma entry_of_round_trip_derived (o : OldSalaryRecord) :
  pay_date_survives_csv to_datetime datetime_csv (derived_row to_datetime o) = true ->
  entry_of to_datetime (csv_round_trip datetime_csv (derived_row to_datetime o))
  = entry_of to_datetime (derived_row to_datetime o).
Proof.
  unfold pay_date_survives_csv, entry_of, csv_round_trip, derived_row, read_record.
  cbn [Pay_Date Start_Date End_Date Salary set_Pay_Date read_old_record
       to_csv_record rec_start rec_end rec_salary rec_pay].
  rewrite !to_csv_read_cell. intros H. f_equal.
  destruct (old_end o) as [|x]; simpl in *; [reflexivity|].
  destruct (to_datetime x) as [t|]; simpl in *; [|reflexivity].
  apply bool_decide_eq_true in H. unfold timestamp_of. simpl. rewrite H. reflexivity.
Qed.

Lemma entry_of_survives (r : SalaryRow) :
  entry_survives_csv to_datetime datetime_csv r = true ->
  entry_of to_datetime (csv_round_trip datetime_csv r) = entry_of to_datetime r.
Proof.
  unfold entry_survives_csv, survives_csv. intros H.
  apply andb_true_iff in H. destruct H as [H Hp].
  apply andb_true_iff in H. destruct H as [Hs He].
  apply bool_decide_eq_true in Hs, He, Hp.
  unfold entry_of, csv_round_trip, read_record, to_csv_record.
  cbn [Start_Date End_Date Salary Pay_Date rec_start rec_end rec_salary rec_pay].
  rewrite Hs, He, Hp. reflexivity.
Qed.

(** What a successful load returns comes back unchanged from a CSV file,
    up to the text of the derived pay dates of an older file. *)
Lemma loaded_round_trip (fs : FileSystem) (sd : DataFrame SalaryRow) :
  load_salary_data to_datetime fs = (Ok sd, fs) ->
  ((forall recs, SALARY_FILE fs <> Some (Csv (WithoutPayDate recs))) ->
   map (csv_round_trip datetime_csv) (records sd) = records sd)
  /\ (forallb (pay_date_survives_csv to_datetime datetime_csv) (records sd) = true ->
      map (entry_of to_datetime) (map (csv_round_trip datetime_csv) (records sd))
      = map (entry_of to_datetime) (records sd)).
Proof.
  intros H. apply load_salary_data_inv in H. destruct H as (_ & _ & _ & H).
  destruct (SALARY_FILE fs) as [[|[recs|recs]]|]; try contradiction.
  - destruct H as [_ ->]. split; [intros Hn; destruct (Hn recs); reflexivity|].
    intros Hs. rewrite !map_map. apply map_ext_in. intros o Ho.
    apply entry_of_round_trip_derived.
    rewrite forallb_forall in Hs. apply Hs, in_map, Ho.
  - rewrite H.
    assert (Hid : map (csv_round_trip datetime_csv) (map read_record recs)
                  = map read_record recs).
    { rewrite map_map. apply map_ext. intros r. apply csv_round_trip_read_record. }
    rewrite Hid. split; reflexivity.
  - rewrite H. split; reflexivity.
Qed.

(** C7. For every store state and every entry, loading immediately after
    an append returns the previously loaded sequence with the entry at
    its end, and the whole collection is in the file. For the expense
    store the sequence is returned as it was. For the salary store the
    rows are those read back from the CSV file: the appended entry and
    the rows of a file that has the Pay Date column come back as written,
    and the derived pay dates of an older file come back as their text;
    whenever the dates written parse back to themselves, the entries
    returned are the earlier entries followed by the appended one. *)
Theorem load_after_append (fs : FileSystem) :
  (forall (df : DataFrame ExpenseRow) (date category : string) (spent budgeted : Z),
     load_data fs = (Ok df, fs) ->
     exists df' fs',
       (add_entry date category spent budgeted ≫= fun _ => load_data) fs = (Ok df', fs')
       /\ records df' = records df ++ [mkExpense date category spent budgeted]
       /\ DATA_FILE fs'
          = Some (Csv (records df ++ [mkExpense date category spent budgeted])))
  /\
  (forall (sd : DataFrame SalaryRow) (start_date end_date : value) (salary : Z)
          (pay_date : value),
     load_salary_data to_datetime fs = (Ok sd, fs) ->
     let e := mkSalary start_date end_date salary pay_date in
     exists sd' fs',
       (add_salary to_datetime datetime_csv start_date end_date salary pay_date
          ≫= fun _ => load_salary_data to_datetime) fs = (Ok sd', fs')
       /\ records sd'
          = map (csv_round_trip datetime_csv) (records sd) ++ [csv_round_trip datetime_csv e]
       /\ SALARY_FILE fs'
          = Some (Csv (WithPayDate (map (to_csv_record datetime_csv) (records sd ++ [e]))))
       /\ ((forall recs, SALARY_FILE fs <> Some (Csv (WithoutPayDate recs))) ->
           records sd' = records sd ++ [csv_round_trip datetime_csv e])
       /\ (forallb (pay_date_survives_csv to_datetime datetime_csv) (records sd) = true ->
           entry_survives_csv to_datetime datetime_csv e = true ->
           map (entry_of to_datetime) (records sd')
           = map (entry_of to_datetime) (records sd ++ [e]))).
Proof.
  split.
  - intros df date category spent budgeted Hload.
    unfold mbind, IO_bind. rewrite (add_entry_run _ _ _ _ _ _ Hload).
    rewrite load_data_run. cbn [DATA_FILE].
    eexists; eexists. split; [reflexivity|]. split; [|reflexivity].
    unfold records. simpl. apply RangeIndex_records.
  - intros sd start_date end_date salary pay_date Hload e.
    unfold mbind, IO_bind. rewrite (add_salary_run _ _ _ _ _ _ Hload).
    rewrite load_salary_data_run. cbn [SALARY_FILE].
    eexists; eexists. split; [reflexivity|].
    assert (Hrec : records (mkDataFrame SALARY_COLUMNS
                     (RangeIndex (map read_record (map (to_csv_record datetime_csv)
                        (records sd ++ [mkSalary start_date end_date salary pay_date])))))
                   = map (csv_round_trip datetime_csv) (records sd)
                     ++ [csv_round_trip datetime_csv e]).
    { unfold records at 1. simpl. rewrite RangeIndex_records, map_map, map_app.
      reflexivity. }
    destruct (loaded_round_trip _ _ Hload) as [Hid Hent].
    split; [exact Hrec|]. split; [reflexivity|]. split.
    + intros Hn. rewrite Hrec, (Hid Hn). reflexivity.
    + intros Hs He. rewrite Hrec, !map_app, (Hent Hs). cbn [map].
      rewrite (entry_of_survives e He). reflexivity.
Qed.

(** *** Deleting *)

Lemma filter_labels_above {R} (k i : nat) (l : list R) :
  (i < k)%nat ->
  List.filter (fun r : nat * R => negb (Nat.eqb (fst r) i)) (combine (seq k (length l)) l)
  = combine (seq k (length l)) l.
Proof.
  revert k. induction l as [|x l IH]; intros k Hk; simpl; [reflexivity|].
  destruct (Nat.eqb_spec k i) as [->|_]; [lia|]. simpl.
  rewrite IH by lia. reflexivity.
Qed.

Lemma drop_label_records {R} (k i : nat) (l : list R) :
  map snd (List.filter (fun r : nat * R => negb (Nat.eqb (fst r) (k + i)))
             (combine (seq k (length l)) l))
  = remove_at i l.
Proof.
  revert k i. induction l as [|x l IH]; intros k i; simpl.
  - destruct i; reflexivity.
  - destruct i as [|i].
    + rewrite Nat.add_0_r, Nat.eqb_refl. simpl.
      rewrite filter_labels_above by lia.
      unfold remove_at. simpl.
      clear IH. generalize (S k). induction l as [|y l IH]; intros n; simpl;
        [reflexivity | f_equal; apply IH].
    + destruct (Nat.eqb_spec k (k + S i)) as [E|_]; [lia|]. simpl.
      replace (k + S i)%nat with (S k + i)%nat by lia.
      rewrite IH. reflexivity.
Qed.

Lemma drop_run {R} (i : nat) (df : DataFrame R) :
  rows df = RangeIndex (records df) ->
  (i < length (records df))%nat ->
  exists df', drop i df = Ok df' /\ columns df' = columns df
              /\ records (reset_index df') = remove_at i (records df).
Proof.
  intros Hrows Hi. unfold drop.
  rewrite bool_decide_eq_true_2.
  - eexists. split; [reflexivity|]. split; [reflexivity|].
    unfold reset_index, records at 1. cbn [rows]. rewrite RangeIndex_records.
    unfold records at 1. cbn [rows]. rewrite Hrows. unfold RangeIndex.
    apply (drop_label_records 0 i).
  - unfold index. rewrite Hrows, RangeIndex_index. apply elem_of_seq. lia.
Qed.

Lemma drop_out_of_range {R} (i : nat) (df : DataFrame R) :
  rows df = RangeIndex (records df) ->
  (length (records df) <= i)%nat ->
  drop i df = Raise KeyError.
Proof.
  intros Hrows Hi. unfold drop.
  rewrite bool_decide_eq_false_2; [reflexivity|].
  unfold index. rewrite Hrows, RangeIndex_index, elem_of_seq. lia.
Qed.

Lemma delete_entry_run (fs : FileSystem) (df : DataFrame ExpenseRow) (i : nat) :
  load_data fs = (Ok df, fs) ->
  (i < length (records df))%nat ->
  delete_confirmation to_datetime datetime_csv i false fs
  = (Ok tt, mkFS (Some (Csv (remove_at i (records df)))) (SALARY_FILE fs)).
Proof.
  intros Hload Hi. pose proof (load_data_inv _ _ _ Hload) as (_ & _ & Hrows & _).
  destruct (drop_run i df Hrows Hi) as (df' & Hdrop & _ & Hrec).
  unfold delete_confirmation, mbind, IO_bind. rewrite Hload.
  unfold lift. rewrite Hdrop. cbn [fmap result_fmap].
  unfold save_data, write_DATA_FILE. rewrite Hrec. reflexivity.
Qed.

Lemma delete_salary_run (fs : FileSystem) (sd : DataFrame SalaryRow) (i : nat) :
  load_salary_data to_datetime fs = (Ok sd, fs) ->
  (i < length (records sd))%nat ->
  delete_confirmation to_datetime datetime_csv i true fs
  = (Ok tt, mkFS (DATA_FILE fs)
              (Some (Csv (WithPayDate
                 (map (to_csv_record datetime_csv) (remove_at i (records sd))))))).
Proof.
  intros Hload Hi.
  pose proof (load_salary_data_inv _ _ _ Hload) as (_ & Hcols & Hrows & _).
  destruct (drop_run i sd Hrows Hi) as (sd' & Hdrop & Hcols' & Hrec).
  unfold delete_confirmation, mbind, IO_bind. rewrite Hload.
  unfold lift. rewrite Hdrop. cbn [fmap result_fmap].
  rewrite save_salary_data_run
    by (unfold reset_index; cbn [columns]; congruence).
  rewrite Hrec. reflexivity.
Qed.

Lemma remove_at_length {R} (i : nat) (l : list R) :
  (i < length l)%nat -> length (remove_at i l) = (length l - 1)%nat.
Proof.
  intros Hi. unfold remove_at.
  rewrite length_app, length_take, length_skipn. lia.
Qed.

Lemma remove_at_lookup_before {R} (i j : nat) (l : list R) :
  (j < i)%nat -> (i < length l)%nat -> remove_at i l !! j = l !! j.
Proof.
  intros Hj Hi. unfold remove_at.
  rewrite lookup_app_l by (rewrite length_take; lia).
  apply lookup_take_lt. exact Hj.
Qed.

Lemma remove_at_lookup_after {R} (i j : nat) (l : list R) :
  (i <= j)%nat -> (i < length l)%nat -> remove_at i l !! j = l !! S j.
Proof.
  intros Hj Hi. unfold remove_at.
  rewrite lookup_app_r by (rewrite length_take; lia).
  rewrite length_take, lookup_drop. f_equal. lia.
Qed.

Lemma remove_at_map {A B} (f : A -> B) (i : nat) (l : list A) :
  remove_at i (map f l) = map f (remove_at i l).
Proof.
  unfold remove_at. rewrite map_app, <- firstn_map, <- skipn_map. reflexivity.
Qed.

(** C8. For every store of [n] entries and every index [i] below [n],
    deleting at [i] and loading returns [n - 1] entries, numbered from 0
    without gaps: the entries before position [i] stay where they were,
    the entries after it move up by one, and the entry formerly at [i]
    is gone (salary rows come back as read from the CSV file). *)
Theorem load_after_delete (fs : FileSystem) (i : nat) :
  (forall df : DataFrame ExpenseRow,
     load_data fs = (Ok df, fs) ->
     (i < length (records df))%nat ->
     exists df' fs',
       (delete_confirmation to_datetime datetime_csv i false ≫= fun _ => load_data) fs
       = (Ok df', fs')
       /\ records df' = remove_at i (records df)
       /\ length (records df') = (length (records df) - 1)%nat
       /\ index df' = seq 0 (length (records df) - 1)
       /\ (forall j, (j < i)%nat -> records df' !! j = records df !! j)
       /\ (forall j, (i <= j)%nat -> records df' !! j = records df !! S j))
  /\
  (forall sd : DataFrame SalaryRow,
     load_salary_data to_datetime fs = (Ok sd, fs) ->
     (i < length (records sd))%nat ->
     exists sd' fs',
       (delete_confirmation to_datetime datetime_csv i true
          ≫= fun _ => load_salary_data to_datetime) fs
       = (Ok sd', fs')
       /\ records sd' = map (csv_round_trip datetime_csv) (remove_at i (records sd))
       /\ length (records sd') = (length (records sd) - 1)%nat
       /\ index sd' = seq 0 (length (records sd) - 1)
       /\ (forall j, (j < i)%nat ->
             records sd' !! j = csv_round_trip datetime_csv <$> records sd !! j)
       /\ (forall j, (i <= j)%nat ->
             records sd' !! j = csv_round_trip datetime_csv <$> records sd !! S j)
       /\ ((forall recs, SALARY_FILE fs <> Some (Csv (WithoutPayDate recs))) ->
           records sd' = remove_at i (records sd))
       /\ (forallb (pay_date_survives_csv to_datetime datetime_csv) (records sd) = true ->
           map (entry_of to_datetime) (records sd')
           = remove_at i (map (entry_of to_datetime) (records sd)))).
Proof.
  split.
  - intros df Hload Hi.
    unfold mbind, IO_bind. rewrite (delete_entry_run _ _ _ Hload Hi).
    rewrite load_data_run. cbn [DATA_FILE].
    eexists; eexists. split; [reflexivity|].
    assert (Hrec : records (mkDataFrame EXPENSE_COLUMNS
                              (RangeIndex (remove_at i (records df))))
                   = remove_at i (records df)).
    { unfold records at 1. simpl. apply RangeIndex_records. }
    rewrite Hrec. split; [reflexivity|].
    split; [apply remove_at_length, Hi|]. split.
    + unfold index. simpl. rewrite RangeIndex_index, remove_at_length by exact Hi.
      reflexivity.
    + split; intros j Hj.
      * apply remove_at_lookup_before; assumption.
      * apply remove_at_lookup_after; assumption.
  - intros sd Hload Hi.
    unfold mbind, IO_bind. rewrite (delete_salary_run _ _ _ Hload Hi).
    rewrite load_salary_data_run. cbn [SALARY_FILE].
    eexists; eexists. split; [reflexivity|].
    assert (Hrec : records (mkDataFrame SALARY_COLUMNS
                     (RangeIndex (map read_record (map (to_csv_record datetime_csv)
                        (remove_at i (records sd))))))
                   = map (csv_round_trip datetime_csv) (remove_at i (records sd))).
    { unfold records at 1. simpl. rewrite RangeIndex_records, map_map. reflexivity. }
    assert (Hlen : length (map (csv_round_trip datetime_csv) (remove_at i (records sd)))
                   = (length (records sd) - 1)%nat).
    { rewrite length_map. apply remove_at_length, Hi. }
    rewrite Hrec. split; [reflexivity|]. split; [exact Hlen|]. split.
    + unfold index. cbn [rows]. rewrite RangeIndex_index, !length_map.
      rewrite remove_at_length by exact Hi. reflexivity.
    + split; [|split].
      * intros j Hj.
        change (map (csv_round_trip datetime_csv) (remove_at i (records sd)))
          with (csv_round_trip datetime_csv <$> remove_at i (records sd)).
        rewrite list_lookup_fmap, remove_at_lookup_before by assumption. reflexivity.
      * intros j Hj.
        change (map (csv_round_trip datetime_csv) (remove_at i (records sd)))
          with (csv_round_trip datetime_csv <$> remove_at i (records sd)).
        rewrite list_lookup_fmap, remove_at_lookup_after by assumption. reflexivity.
      * split.
        -- intros Hn. destruct (loaded_round_trip _ _ Hload) as [Hid _].
           rewrite <- remove_at_map, (Hid Hn). reflexivity.
        -- intros Hs. destruct (loaded_round_trip _ _ Hload) as [_ Hent].
           rewrite <- !remove_at_map, (Hent Hs). reflexivity.
Qed.

(** *** Each store writes its own file *)

Lemma load_salary_data_ext (fs1 fs2 : FileSystem) :
  SALARY_FILE fs1 = SALARY_FILE fs2 ->
  fst (load_salary_data to_datetime fs1) = fst (load_salary_data to_datetime fs2).
Proof.
  intros H. rewrite !load_salary_data_run, H.
  destruct (SALARY_FILE fs2) as [[|[recs|recs]]|]; try reflexivity.
  destruct (forallb _ recs); reflexivity.
Qed.

Lemma load_data_ext (fs1 fs2 : FileSystem) :
  DATA_FILE fs1 = DATA_FILE fs2 -> fst (load_data fs1) = fst (load_data fs2).
Proof.
  intros H. rewrite !load_data_run, H.
  destruct (DATA_FILE fs2) as [[|t]|]; reflexivity.
Qed.

Lemma add_entry_frame (fs : FileSystem) (date category : string) (spent budgeted : Z) :
  SALARY_FILE (snd (add_entry date category spent budgeted fs)) = SALARY_FILE fs.
Proof.
  unfold add_entry, mbind, IO_bind. rewrite load_data_run.
  destruct (DATA_FILE fs) as [[|t]|]; reflexivity.
Qed.

Lemma add_salary_frame (fs : FileSystem) (start_date end_date : value) (salary : Z)
    (pay_date : value) :
  DATA_FILE (snd (add_salary to_datetime datetime_csv start_date end_date salary pay_date fs))
  = DATA_FILE fs.
Proof.
  unfold add_salary, mbind, IO_bind. rewrite load_salary_data_run.
  destruct (SALARY_FILE fs) as [[|[recs|recs]]|]; try reflexivity.
  destruct (forallb _ recs); reflexivity.
Qed.

Lemma delete_entry_frame (fs : FileSystem) (i : nat) :
  SALARY_FILE (snd (delete_confirmation to_datetime datetime_csv i false fs))
  = SALARY_FILE fs.
Proof.
  unfold delete_confirmation, mbind, IO_bind, lift. rewrite load_data_run.
  destruct (DATA_FILE fs) as [[|t]|]; try reflexivity;
    destruct (drop i _); reflexivity.
Qed.

Lemma delete_salary_frame (fs : FileSystem) (i : nat) :
  DATA_FILE (snd (delete_confirmation to_datetime datetime_csv i true fs))
  = DATA_FILE fs.
Proof.
  unfold delete_confirmation, mbind, IO_bind, lift. rewrite load_salary_data_run.
  destruct (SALARY_FILE fs) as [[|[recs|recs]]|]; try reflexivity;
    try (destruct (forallb _ recs); [|reflexivity]);
    destruct (drop i _); reflexivity.
Qed.

(** C10. Each store's mutations stay in its own file: appending or
    deleting an expense entry leaves the salary file, hence the salary
    collection a load returns, as it was; appending or deleting a salary
    entry leaves the expense file and the expense collection as they
    were. This holds in every state, whether the operation succeeds or
    raises. *)
Theorem stores_do_not_interfere
    (fs : FileSystem) (date category : string) (spent budgeted : Z)
    (start_date end_date : value) (salary : Z) (pay_date : value) (i : nat) :
  let after_add_entry := snd (add_entry date category spent budgeted fs) in
  let after_delete_entry := snd (delete_confirmation to_datetime datetime_csv i false fs) in
  let after_add_salary :=
    snd (add_salary to_datetime datetime_csv start_date end_date salary pay_date fs) in
  let after_delete_salary := snd (delete_confirmation to_datetime datetime_csv i true fs) in
  (SALARY_FILE after_add_entry = SALARY_FILE fs
   /\ fst (load_salary_data to_datetime after_add_entry)
      = fst (load_salary_data to_datetime fs))
  /\ (SALARY_FILE after_delete_entry = SALARY_FILE fs
      /\ fst (load_salary_data to_datetime after_delete_entry)
         = fst (load_salary_data to_datetime fs))
  /\ (DATA_FILE after_add_salary = DATA_FILE fs
      /\ fst (load_data after_add_salary) = fst (load_data fs))
  /\ (DATA_FILE after_delete_salary = DATA_FILE fs
      /\ fst (load_data after_delete_salary) = fst (load_data fs)).
Proof.
  intros a1 a2 a3 a4. subst a1 a2 a3 a4.
  pose proof (add_entry_frame fs date category spent budgeted) as H1.
  pose proof (delete_entry_frame fs i) as H2.
  pose proof (add_salary_frame fs start_date end_date salary pay_date) as H3.
  pose proof (delete_salary_frame fs i) as H4.
  repeat split; auto using load_salary_data_ext, load_data_ext.
Qed.

End StoreFacts.

(** ** Salary of a month *)

Section SalaryFacts.

Variable to_datetime : string -> option Timestamp.

Lemma dt_strftime_coerce (v : value) :
  dt_strftime_Ym (datetime_of_cell to_datetime v)
  = strftime_Ym <$> timestamp_of to_datetime v.
Proof.
  unfold timestamp_of.
  destruct (datetime_of_cell to_datetime v); reflexivity.
Qed.

Lemma filter_map_comm {A B} (p : B -> bool) (g : A -> B) (l : list A) :
  List.filter p (map g l) = map g (List.filter (fun a => p (g a)) l).
Proof.
  induction l as [|a l IH]; simpl; [reflexivity|].
  destruct (p (g a)); simpl; rewrite IH; reflexivity.
Qed.

Lemma mapR_strict_column {R} (f : R -> value) (l : list R) :
  forallb (fun r => parses to_datetime (f r)) l = true ->
  mapR (to_datetime_strict to_datetime) (map f l)
  = Ok (map (fun r => datetime_of_cell to_datetime (f r)) l).
Proof.
  intros H. rewrite mapR_strict_coerce, map_map; [reflexivity|].
  rewrite forallb_forall in H |- *. intros v Hv.
  apply in_map_iff in Hv. destruct Hv as (r & <- & Hr). auto.
Qed.

Lemma get_total_salary_for_month_run
    (fs : FileSystem) (sd : DataFrame SalaryRow) (month : string) :
  load_salary_data to_datetime fs = (Ok sd, fs) ->
  forallb (fun r => parses to_datetime (Start_Date r) && parses to_datetime (End_Date r))
          (records sd) = true ->
  get_total_salary_for_month to_datetime month fs
  = (Ok (Series_sum (salaries_starting_in to_datetime month (records sd))), fs).
Proof.
  intros Hload Hp.
  assert (Hs : forallb (fun r => parses to_datetime (Start_Date r)) (records sd) = true).
  { rewrite forallb_forall in Hp |- *. intros r Hr.
    specialize (Hp r Hr). apply andb_true_iff in Hp. tauto. }
  assert (He : forallb (fun r => parses to_datetime (End_Date r)) (records sd) = true).
  { rewrite forallb_forall in Hp |- *. intros r Hr.
    specialize (Hp r Hr). apply andb_true_iff in Hp. tauto. }
  unfold get_total_salary_for_month, mbind, IO_bind, lift. rewrite Hload.
  rewrite (mapR_strict_column Start_Date _ Hs).
  rewrite (records_assign_map "Start Date" set_Start_Date
             (fun r => datetime_of_cell to_datetime (Start_Date r))).
  rewrite map_map. cbn [End_Date set_Start_Date].
  rewrite (mapR_strict_column (fun x => End_Date x) _ He).
  unfold mret, IO_ret. f_equal. f_equal. f_equal.
  rewrite records_select.
  set (sd1 := assign "Start Date" set_Start_Date _ sd).
  assert (H1 : records sd1
               = map (fun r => set_Start_Date r (datetime_of_cell to_datetime (Start_Date r)))
                     (records sd)).
  { subst sd1.
    apply (records_assign_map "Start Date" set_Start_Date
             (fun r => datetime_of_cell to_datetime (Start_Date r))). }
  assert (H2 : map (fun x => datetime_of_cell to_datetime (End_Date x)) (records sd)
               = map (fun r => datetime_of_cell to_datetime (End_Date r)) (records sd1)).
  { rewrite H1, map_map. reflexivity. }
  rewrite H2.
  rewrite (records_assign_map "End Date" set_End_Date
             (fun r => datetime_of_cell to_datetime (End_Date r))).
  rewrite H1, map_map, filter_map_comm, map_map.
  unfold salaries_starting_in. cbn [Salary Start_Date set_End_Date set_Start_Date].
  f_equal. apply filter_ext. intros r. unfold starts_in.
  rewrite dt_strftime_coerce. reflexivity.
Qed.

Lemma salaries_starting_in_pay_date (month : string) (pay : SalaryRow -> value)
    (salaries : list SalaryRow) :
  salaries_starting_in to_datetime month (map (fun r => set_Pay_Date r (pay r)) salaries)
  = salaries_starting_in to_datetime month salaries.
Proof.
  unfold salaries_starting_in. rewrite filter_map_comm, map_map. reflexivity.
Qed.

(** C2. For every month and every salary collection (start and end dates
    being dates), the salary total of the month is the sum of [Salary]
    over exactly the entries whose Start Date falls in the month; the
    Pay Date is not consulted; the total monthly income is the base
    income plus that total. Sums are [int64] sums, equal to the exact
    ones whenever these fit in 64 bits. *)
Theorem total_salary_is_by_start_date
    (fs : FileSystem) (sd : DataFrame SalaryRow) (month : string) :
  load_salary_data to_datetime fs = (Ok sd, fs) ->
  forallb (fun r => parses to_datetime (Start_Date r) && parses to_datetime (End_Date r))
          (records sd) = true ->
  let salaries := salaries_starting_in to_datetime month (records sd) in
  get_total_salary_for_month to_datetime month fs = (Ok (Series_sum salaries), fs)
  /\ total_monthly_income to_datetime month fs
     = (Ok (add64 MONTHLY_INCOME (Series_sum salaries)), fs)
  /\ Series_sum salaries = wrap64 (Zsum salaries)
  /\ add64 MONTHLY_INCOME (Series_sum salaries) = wrap64 (MONTHLY_INCOME + Zsum salaries)
  /\ (in_int64 (Zsum salaries) -> in_int64 (MONTHLY_INCOME + Zsum salaries) ->
      Series_sum salaries = Zsum salaries
      /\ add64 MONTHLY_INCOME (Series_sum salaries) = MONTHLY_INCOME + Zsum salaries)
  /\ (forall pay : SalaryRow -> value,
        salaries_starting_in to_datetime month
          (map (fun r => set_Pay_Date r (pay r)) (records sd))
        = salaries).
Proof.
  intros Hload Hp salaries.
  pose proof (get_total_salary_for_month_run fs sd month Hload Hp) as Hrun.
  fold salaries in Hrun.
  split; [exact Hrun|]. split.
  { unfold total_monthly_income, mbind, IO_bind. rewrite Hrun. reflexivity. }
  split; [apply Series_sum_wrap|]. split.
  { unfold add64. rewrite Series_sum_wrap. apply wrap64_add_r. }
  split.
  - intros H1 H2. split; [apply Series_sum_exact, H1|].
    unfold add64. rewrite Series_sum_exact by exact H1. apply wrap64_small, H2.
  - intros pay. apply salaries_starting_in_pay_date.
Qed.

(** *** Entries whose pay date is missing or is no date *)

Lemma elem_of_RangeIndex_from {R} (k i : nat) (x : R) (l : list R) :
  (i, x) ∈ combine (seq k (length l)) l <-> (k <= i)%nat /\ l !! (i - k)%nat = Some x.
Proof.
  revert k. induction l as [|y l IH]; intros k; simpl.
  - rewrite elem_of_nil. split; [tauto | intros [_ H]; discriminate].
  - rewrite elem_of_cons, IH. split.
    + intros [[= -> ->] | [Hk Hl]].
      * split; [lia|]. rewrite Nat.sub_diag. reflexivity.
      * split; [lia|]. replace (i - k)%nat with (S (i - S k)) by lia. exact Hl.
    + intros [Hk Hl]. destruct (decide (i = k)) as [-> | Hne].
      * left. rewrite Nat.sub_diag in Hl. simpl in Hl. congruence.
      * right. split; [lia|].
        replace (i - k)%nat with (S (i - S k)) in Hl by lia. exact Hl.
Qed.

Lemma elem_of_RangeIndex {R} (i : nat) (x : R) (l : list R) :
  (i, x) ∈ RangeIndex l <-> l !! i = Some x.
Proof.
  unfold RangeIndex. rewrite elem_of_RangeIndex_from, Nat.sub_0_r.
  split; [tauto | split; [lia | assumption]].
Qed.

Variable guess_datetime_format : string -> option string.
Variable strptime : string -> string -> option Timestamp.

Lemma filter_filter_implied {A} (p q : A -> bool) (l : list A) :
  (forall a, p a = true -> q a = true) ->
  List.filter p (List.filter q l) = List.filter p l.
Proof.
  intros H. induction l as [|a l IH]; simpl; [reflexivity|].
  destruct (q a) eqn:Hq; simpl.
  - destruct (p a); rewrite IH; reflexivity.
  - destruct (p a) eqn:Hp; [|exact IH]. rewrite (H a Hp) in Hq. discriminate.
Qed.

Lemma records_salary_for_month (sd : DataFrame SalaryRow) (m : string) :
  records (salary_for_month to_datetime guess_datetime_format strptime sd m)
  = map (fun r => set_Pay_Date r
                    (converted_pay_date to_datetime guess_datetime_format strptime
                       (records sd) r))
        (List.filter
           (fun r => bool_decide
                       (pay_month to_datetime guess_datetime_format strptime (records sd) r
                        = Some m))
           (records sd)).
Proof.
  unfold salary_for_month, valid_salary_data.
  rewrite !records_select, records_convert_to_datetime, !filter_map_comm.
  f_equal. cbn [Pay_Date set_Pay_Date]. apply filter_filter_implied.
  intros r Hr. apply bool_decide_eq_true in Hr. unfold pay_month in Hr.
  destruct (converted_pay_date to_datetime guess_datetime_format strptime (records sd) r);
    simpl in *; try discriminate; reflexivity.
Qed.

Lemma index_valid_salary_data (sd : DataFrame SalaryRow) (i : nat) :
  i ∈ index (valid_salary_data to_datetime guess_datetime_format strptime sd) <->
  exists r, (i, r) ∈ rows sd
            /\ is_Some (pay_month to_datetime guess_datetime_format strptime (records sd) r).
Proof.
  unfold index, valid_salary_data, select. cbn [rows].
  rewrite elem_of_map, rows_convert_to_datetime. unfold pay_month. split.
  - intros ([j r'] & -> & Hin). cbn [fst].
    apply elem_of_bfilter in Hin. destruct Hin as [Hna Hin].
    apply elem_of_map in Hin. destruct Hin as ([k r] & [= -> ->] & Hin).
    exists r. split; [exact Hin|]. cbn [snd Pay_Date set_Pay_Date] in Hna.
    unfold converted_pay_date in *.
    destruct (to_datetime_cell_cases to_datetime strptime
                (column_format guess_datetime_format (map Pay_Date (records sd)))
                (Pay_Date r)) as [E | [t E]];
      rewrite E in *; simpl in *; [discriminate | eauto].
  - intros (r & Hin & Hsome).
    exists (i, set_Pay_Date r
                 (converted_pay_date to_datetime guess_datetime_format strptime
                    (records sd) r)).
    split; [reflexivity|]. apply elem_of_bfilter. cbn [snd Pay_Date set_Pay_Date]. split.
    + destruct (converted_pay_date to_datetime guess_datetime_format strptime (records sd) r);
        simpl in *; try reflexivity; destruct Hsome; discriminate.
    + apply elem_of_map. exists (i, r). auto.
Qed.

Lemma index_salary_for_month (sd : DataFrame SalaryRow) (m : string) (i : nat) :
  i ∈ index (salary_for_month to_datetime guess_datetime_format strptime sd m) <->
  exists r, (i, r) ∈ rows sd
            /\ pay_month to_datetime guess_datetime_format strptime (records sd) r = Some m.
Proof.
  unfold index, salary_for_month, valid_salary_data, select. cbn [rows].
  rewrite elem_of_map, rows_convert_to_datetime. unfold pay_month. split.
  - intros ([j r'] & -> & Hin). cbn [fst].
    apply elem_of_bfilter in Hin. destruct Hin as [Hm Hin].
    apply elem_of_bfilter in Hin. destruct Hin as [_ Hin].
    apply elem_of_map in Hin. destruct Hin as ([k r] & [= -> ->] & Hin).
    exists r. split; [exact Hin|]. cbn [snd Pay_Date set_Pay_Date] in Hm.
    apply bool_decide_eq_true in Hm. exact Hm.
  - intros (r & Hin & Hm).
    exists (i, set_Pay_Date r
                 (converted_pay_date to_datetime guess_datetime_format strptime
                    (records sd) r)).
    split; [reflexivity|].
    apply elem_of_bfilter. cbn [snd Pay_Date set_Pay_Date].
    split; [apply bool_decide_eq_true; exact Hm|].
    apply elem_of_bfilter. cbn [snd Pay_Date set_Pay_Date]. split.
    + destruct (converted_pay_date to_datetime guess_datetime_format strptime (records sd) r);
        simpl in *; try discriminate; reflexivity.
    + apply elem_of_map. exists (i, r). auto.
Qed.

(** A pay date that is missing, or a text that is a date under no
    format, is [NaT] after the conversion, whatever column it is in. *)
Lemma missing_or_never_a_date (salaries : list SalaryRow) (r : SalaryRow) :
  Pay_Date r = NaN \/ (exists s, Pay_Date r = Str s /\ never_a_date to_datetime strptime s) ->
  converted_pay_date to_datetime guess_datetime_format strptime salaries r = NaT.
Proof.
  unfold converted_pay_date. intros [-> | (s & -> & Hto & Hstr)]; [reflexivity|].
  simpl. destruct (column_format guess_datetime_format (map Pay_Date salaries)) as [f|].
  - rewrite Hstr. reflexivity.
  - rewrite Hto. reflexivity.
Qed.

(** C9. For every salary collection (start and end dates being dates),
    an entry whose Pay Date is missing or does not parse (it is a date
    under no format, or the conversion of the Pay Date column turns it
    into [NaT]) and whose Start Date falls in the selected month still
    adds its salary to the total of the month, which is computed from a
    fresh load of the store and drops no row; yet the entry is not in
    the frame the month universe and the salary tables are taken from:
    its label is in no month's table, and every salary month offered is
    the month of another entry. *)
Theorem invalid_pay_date_still_counts
    (fs : FileSystem) (df : DataFrame ExpenseRow) (sd : DataFrame SalaryRow)
    (month : string) (before after : list SalaryRow) (r : SalaryRow) :
  load_salary_data to_datetime fs = (Ok sd, fs) ->
  records sd = before ++ r :: after ->
  Pay_Date r = NaN
  \/ (exists s, Pay_Date r = Str s /\ never_a_date to_datetime strptime s)
  \/ converted_pay_date to_datetime guess_datetime_format strptime (records sd) r = NaT ->
  starts_in to_datetime month r = true ->
  forallb (fun r => parses to_datetime (Start_Date r) && parses to_datetime (End_Date r))
          (records sd) = true ->
  get_total_salary_for_month to_datetime month fs
  = (Ok (wrap64 (Salary r + Zsum (salaries_starting_in to_datetime month (before ++ after)))),
     fs)
  /\ (length before
      ∉ index (valid_salary_data to_datetime guess_datetime_format strptime sd))
  /\ (forall m,
        length before
        ∉ index (salary_for_month to_datetime guess_datetime_format strptime sd m))
  /\ (forall m,
        m ∈ available_months to_datetime guess_datetime_format strptime df sd <->
        (exists e, e ∈ records df /\ slice7 (Date e) = m)
        \/ (exists j s, j <> length before /\ records sd !! j = Some s
                        /\ pay_month to_datetime guess_datetime_format strptime
                             (records sd) s = Some m)).
Proof.
  intros Hload Hrec Hpay Hstart Hp.
  assert (HNaT : converted_pay_date to_datetime guess_datetime_format strptime
                   (records sd) r = NaT).
  { destruct Hpay as [H | [H | H]]; [| |exact H];
      apply missing_or_never_a_date; auto. }
  assert (Hmonth : pay_month to_datetime guess_datetime_format strptime (records sd) r
                   = None).
  { unfold pay_month. rewrite HNaT. reflexivity. }
  pose proof (load_salary_data_inv _ _ _ _ Hload) as (_ & _ & Hrows & _).
  assert (Hat : forall s, (length before, s) ∈ rows sd -> s = r).
  { intros s Hin. rewrite Hrows, Hrec in Hin. apply elem_of_RangeIndex in Hin.
    rewrite lookup_app_r in Hin by lia. rewrite Nat.sub_diag in Hin.
    simpl in Hin. congruence. }
  split.
  { rewrite (get_total_salary_for_month_run fs sd month Hload Hp).
    rewrite Series_sum_wrap, Hrec. do 2 f_equal.
    unfold salaries_starting_in.
    rewrite !List.filter_app. cbn [List.filter]. rewrite Hstart.
    rewrite !map_app. cbn [map]. rewrite !Zsum_app.
    f_equal. unfold Zsum. cbn [fold_right]. lia. }
  split.
  { intros Hin. apply index_valid_salary_data in Hin.
    destruct Hin as (s & Hin & Hsome). apply Hat in Hin. subst s.
    rewrite Hmonth in Hsome. destruct Hsome as [x Hx]. discriminate. }
  split.
  { intros m Hin. apply index_salary_for_month in Hin.
    destruct Hin as (s & Hin & Hm). apply Hat in Hin. subst s. congruence. }
  intros m. rewrite elem_of_available_months. split.
  - intros [He | (s & Hs & Hm)]; [left; exact He|]. right.
    apply list_elem_of_lookup in Hs. destruct Hs as [j Hj].
    exists j, s. split; [|split; assumption].
    intros ->. assert (s = r); [|congruence].
    apply Hat. rewrite Hrows. apply elem_of_RangeIndex. exact Hj.
  - intros [He | (j & s & _ & Hj & Hm)]; [left; exact He|]. right.
    exists s. split; [|exact Hm]. apply list_elem_of_lookup. eauto.
Qed.

End SalaryFacts.

(** ** The monthly overview *)

Lemma Zsum_map_add {A} (f g : A -> Z) (l : list A) :
  Zsum (map (fun a => f a + g a) l) = Zsum (map f l) + Zsum (map g l).
Proof. induction l as [|a l IH]; simpl; lia. Qed.

Lemma Zsum_map_zero {A} (l : list A) : Zsum (map (fun _ => 0) l) = 0.
Proof. induction l as [|a l IH]; simpl; lia. Qed.

Lemma Zsum_indicator (k0 : string) (c : Z) (ks : list string) :
  NoDup ks -> k0 ∈ ks ->
  Zsum (map (fun k => if String.eqb k0 k then c else 0) ks) = c.
Proof.
  induction 1 as [|k ks Hk Hnd IH]; intros Hin.
  - apply elem_of_nil in Hin. contradiction.
  - simpl. destruct (String.eqb_spec k0 k) as [-> | Hne].
    + assert (H0 : Zsum (map (fun k' => if String.eqb k k' then c else 0) ks) = 0).
      { clear IH Hin Hnd. induction ks as [|k' ks IH]; simpl; [reflexivity|].
        rewrite not_elem_of_cons in Hk. destruct Hk as [Hne Hk].
        destruct (String.eqb_spec k k'); [congruence|]. rewrite IH by exact Hk. lia. }
      lia.
    + apply elem_of_cons in Hin. destruct Hin as [-> | Hin]; [congruence|].
      rewrite IH by exact Hin. lia.
Qed.

(** Summing group by group is summing everything, for any set of keys
    that holds each key of a row once. *)
Lemma Zsum_groups {R} (key : R -> string) (col : R -> Z) (ks : list string)
    (l : list R) :
  NoDup ks -> (forall r, r ∈ l -> key r ∈ ks) ->
  Zsum (map (fun k => Zsum (map col (List.filter (fun r => String.eqb (key r) k) l))) ks)
  = Zsum (map col l).
Proof.
  intros Hnd. induction l as [|r l IH]; intros Hks.
  - simpl. apply Zsum_map_zero.
  - transitivity
      (Zsum (map (fun k => (if String.eqb (key r) k then col r else 0)
                           + Zsum (map col (List.filter (fun r' => String.eqb (key r') k) l)))
                 ks)).
    + f_equal. apply map_ext. intros k. simpl.
      destruct (String.eqb (key r) k); simpl; lia.
    + rewrite Zsum_map_add, Zsum_indicator, IH; simpl; auto.
      * intros r' Hr'. apply Hks. right. exact Hr'.
      * apply Hks. left.
Qed.

Lemma groupby_sum_keys {R} (key : R -> string) (col : R -> Z) (df : DataFrame R) :
  map fst (groupby_sum key col df) = sorted (unique (map key (records df))).
Proof. unfold groupby_sum. rewrite map_map. simpl. apply map_id. Qed.

Lemma groupby_sum_values {R} (key : R -> string) (col : R -> Z) (df : DataFrame R) :
  map snd (groupby_sum key col df)
  = map (fun k => wrap64
                    (Zsum (map col (List.filter (fun r => String.eqb (key r) k) (records df)))))
        (sorted (unique (map key (records df)))).
Proof.
  unfold groupby_sum. rewrite map_map. simpl.
  apply map_ext. intros k. apply Series_sum_wrap.
Qed.

Lemma Zsum_group_sums {R} (key : R -> string) (col : R -> Z) (df : DataFrame R) :
  Zsum (map (fun k => Zsum (map col (List.filter (fun r => String.eqb (key r) k) (records df))))
            (sorted (unique (map key (records df)))))
  = Zsum (map col (records df)).
Proof.
  apply Zsum_groups.
  - rewrite sorted_perm. apply NoDup_unique.
  - intros r Hr. rewrite elem_of_sorted, elem_of_unique.
    apply elem_of_map. eauto.
Qed.

(** The sum of the group sums is the sum of the column. *)
Lemma groupby_sum_total {R} (key : R -> string) (col : R -> Z) (df : DataFrame R) :
  Series_sum (map snd (groupby_sum key col df)) = Series_sum (map col (records df)).
Proof.
  rewrite !Series_sum_wrap, groupby_sum_values.
  rewrite <- (map_map _ wrap64), Zsum_map_wrap64, Zsum_group_sums. reflexivity.
Qed.

Lemma Zsum_filter_le {R} (col : R -> Z) (p : R -> bool) (l : list R) :
  Forall (fun r => 0 <= col r) l ->
  0 <= Zsum (map col (List.filter p l)) <= Zsum (map col l).
Proof.
  induction 1 as [|r l Hr _ IH]; simpl; [lia|].
  destruct (p r); simpl; lia.
Qed.

(** With amounts that are not negative and a total that fits in 64 bits,
    no group sum wraps around. *)
Lemma groupby_sum_exact {R} (key : R -> string) (col : R -> Z) (df : DataFrame R) :
  Forall (fun r => 0 <= col r) (records df) ->
  in_int64 (Zsum (map col (records df))) ->
  Zsum (map snd (groupby_sum key col df)) = Zsum (map col (records df)).
Proof.
  intros Hpos Hfit. rewrite groupby_sum_values, <- Zsum_group_sums with (key := key).
  f_equal. apply map_ext. intros k. apply wrap64_small.
  pose proof (Zsum_filter_le col (fun r => String.eqb (key r) k) _ Hpos).
  unfold in_int64 in *. lia.
Qed.

Lemma monthly_overview_run (monthly_data : DataFrame ExpenseRow) :
  empty monthly_data = false ->
  monthly_overview monthly_data
  = Some (mkOverview
            (groupby_sum Category Amount_Spent monthly_data)
            (Series_sum (map snd (groupby_sum Category Amount_Spent monthly_data)))
            (Series_sum (map snd (groupby_sum Category Budgeted_Amount monthly_data)))
            (sub64 MONTHLY_INCOME
               (Series_sum (map snd (groupby_sum Category Amount_Spent monthly_data))))
            (sub64 MONTHLY_INCOME
               (Series_sum (map snd (groupby_sum Category Amount_Spent monthly_data))))).
Proof. intros H. unfold monthly_overview. rewrite H. reflexivity. Qed.

(** C3. For every non-empty set of expenses of a month, the remaining
    budget is the base income minus the total spent, the remaining
    savings are computed by the same formula, and the two are equal (the
    difference is an [int64] one, exact whenever the total spent is not
    negative). One entry [2024-06-01, Food, 20, 50] filtered to month
    [2024-06] gives a total spent of 20, a total budgeted of 50 and a
    remaining budget of 800 - 20 = 780. *)
Theorem remaining_budget_is_income_minus_spent (monthly_data : DataFrame ExpenseRow) :
  empty monthly_data = false ->
  (exists o,
     monthly_overview monthly_data = Some o
     /\ remaining_budget o = sub64 MONTHLY_INCOME (total_spent o)
     /\ remaining_savings o = sub64 MONTHLY_INCOME (total_spent o)
     /\ remaining_budget o = remaining_savings o
     /\ (0 <= total_spent o ->
         remaining_budget o = MONTHLY_INCOME - total_spent o
         /\ remaining_savings o = MONTHLY_INCOME - total_spent o))
  /\ (let df := mkDataFrame EXPENSE_COLUMNS
                  (RangeIndex [mkExpense "2024-06-01" "Food" 20 50]) in
      exists o,
        monthly_overview (selected_month_data df "2024-06") = Some o
        /\ total_spent o = 20 /\ total_budgeted o = 50
        /\ remaining_budget o = 780 /\ 780 = 800 - 20
        /\ remaining_savings o = 780).
Proof.
  intros Hne. split.
  - rewrite (monthly_overview_run _ Hne). eexists. split; [reflexivity|].
    cbn [remaining_budget remaining_savings total_spent].
    split; [reflexivity|]. split; [reflexivity|]. split; [reflexivity|].
    intros Hpos.
    assert (Hexact :
      sub64 MONTHLY_INCOME
        (Series_sum (map snd (groupby_sum Category Amount_Spent monthly_data)))
      = MONTHLY_INCOME
        - Series_sum (map snd (groupby_sum Category Amount_Spent monthly_data))).
    { unfold sub64. apply wrap64_small.
      pose proof (wrap64_range
             (Zsum (map snd (groupby_sum Category Amount_Spent monthly_data)))) as Hr.
      rewrite <- Series_sum_wrap in Hr.
      unfold in_int64, MONTHLY_INCOME in *. lia. }
    split; exact Hexact.
  - vm_compute. eexists. repeat split; reflexivity.
Qed.

(** C4. For every non-empty set of expenses of a month, the per-category
    sums of Amount Spent add up to the total spent, which is the sum of
    Amount Spent over all entries, and the total budgeted, computed from
    the per-category sums of Budgeted Amount, is the sum of Budgeted
    Amount over all entries: grouping does not change a sum. The sums
    are [int64] sums; with amounts that are not negative and totals that
    fit in 64 bits they are the exact ones. *)
Theorem category_sums_add_up (monthly_data : DataFrame ExpenseRow) :
  empty monthly_data = false ->
  exists o,
    monthly_overview monthly_data = Some o
    /\ total_spent_by_category o = groupby_sum Category Amount_Spent monthly_data
    /\ map fst (total_spent_by_category o)
       = sorted (unique (map Category (records monthly_data)))
    /\ Series_sum (map snd (total_spent_by_category o)) = total_spent o
    /\ total_spent o = Series_sum (map Amount_Spent (records monthly_data))
    /\ total_budgeted o
       = Series_sum (map snd (groupby_sum Category Budgeted_Amount monthly_data))
    /\ total_budgeted o = Series_sum (map Budgeted_Amount (records monthly_data))
    /\ (Forall (fun r => 0 <= Amount_Spent r) (records monthly_data) ->
        in_int64 (Zsum (map Amount_Spent (records monthly_data))) ->
        Zsum (map snd (total_spent_by_category o)) = total_spent o
        /\ total_spent o = Zsum (map Amount_Spent (records monthly_data)))
    /\ (Forall (fun r => 0 <= Budgeted_Amount r) (records monthly_data) ->
        in_int64 (Zsum (map Budgeted_Amount (records monthly_data))) ->
        Zsum (map snd (groupby_sum Category Budgeted_Amount monthly_data))
        = total_budgeted o
        /\ total_budgeted o = Zsum (map Budgeted_Amount (records monthly_data))).
Proof.
  intros Hne. rewrite (monthly_overview_run _ Hne). eexists. split; [reflexivity|].
  cbn [total_spent_by_category total_spent total_budgeted].
  split; [reflexivity|]. split; [apply groupby_sum_keys|].
  split; [reflexivity|]. split; [apply groupby_sum_total|].
  split; [reflexivity|]. split; [apply groupby_sum_total|].
  split.
  - intros Hpos Hfit. rewrite groupby_sum_total, Series_sum_exact by exact Hfit.
    split; [|reflexivity]. apply groupby_sum_exact; assumption.
  - intros Hpos Hfit. rewrite groupby_sum_total, Series_sum_exact by exact Hfit.
    split; [|reflexivity]. apply groupby_sum_exact; assumption.
Qed.

(** * The theorems at concrete stores *)

(** C2 at the store with one salary period of June 2024: 500 of salary,
    1300 of income. *)
Lemma total_salary_is_by_start_date_witness :
  get_total_salary_for_month iso_to_datetime "2024-06" tracker_fs = (Ok 500, tracker_fs)
  /\ total_monthly_income iso_to_datetime "2024-06" tracker_fs = (Ok 1300, tracker_fs).
Proof.
  destruct (total_salary_is_by_start_date iso_to_datetime tracker_fs
              (mkDataFrame SALARY_COLUMNS (RangeIndex [read_record june_salary]))
              "2024-06" eq_refl eq_refl) as (H1 & H2 & _).
  split; [exact H1 | exact H2].
Defined.

(** C3 at the June expenses of the concrete store. *)
Lemma remaining_budget_is_income_minus_spent_witness :
  exists o,
    monthly_overview
      (selected_month_data (mkDataFrame EXPENSE_COLUMNS (RangeIndex june_expenses)) "2024-06")
    = Some o
    /\ total_spent o = 39 /\ remaining_budget o = 761 /\ remaining_savings o = 761.
Proof.
  destruct (remaining_budget_is_income_minus_spent
              (selected_month_data (mkDataFrame EXPENSE_COLUMNS (RangeIndex june_expenses))
                                   "2024-06") eq_refl)
    as [(o & Ho & Hb & Hs & _) _].
  exists o. vm_compute in Ho. injection Ho as <-.
  repeat split; reflexivity.
Defined.

(** C4 at the June expenses of the concrete store: Food 32 and Transport
    7 add up to 39. *)
Lemma category_sums_add_up_witness :
  exists o,
    monthly_overview
      (selected_month_data (mkDataFrame EXPENSE_COLUMNS (RangeIndex june_expenses)) "2024-06")
    = Some o
    /\ total_spent_by_category o = [("Food", 32); ("Transport", 7)]%string
    /\ total_spent o = 39
    /\ total_budgeted o = 120.
Proof.
  destruct (category_sums_add_up
              (selected_month_data (mkDataFrame EXPENSE_COLUMNS (RangeIndex june_expenses))
                                   "2024-06") eq_refl)
    as (o & Ho & Hc & _ & _ & Hs & _ & Hb & _).
  exists o. split; [exact Ho|]. split; [exact Hc|]. split; [exact Hs | exact Hb].
Defined.

(** C5 at the older salary file: the record that ends on 2024-07-01 is
    loaded with the Pay Date 2024-07-01, and the file still has no Pay
    Date column after the load. *)
Lemma load_derives_pay_date_in_memory_witness :
  exists df,
    load_salary_data iso_to_datetime old_salary_fs = (Ok df, old_salary_fs)
    /\ map Pay_Date (records df)
       = [Datetime (mkTimestamp 2024 7 1 0); Datetime (mkTimestamp 2024 7 15 0)]
    /\ SALARY_FILE (snd (load_salary_data iso_to_datetime old_salary_fs))
       = SALARY_FILE old_salary_fs
    /\ (load_salary_data iso_to_datetime ≫= fun _ => load_salary_data iso_to_datetime)
         old_salary_fs
       = (Ok df, old_salary_fs).
Proof.
  destruct (load_derives_pay_date_in_memory iso_to_datetime old_salary_fs _ eq_refl eq_refl)
    as (df & Hload & _ & Hrec & _ & Hfile & Htwice).
  exists df. split; [exact Hload|]. split; [rewrite Hrec; reflexivity|].
  split; [exact Hfile | exact Htwice].
Defined.

(** C7 at the concrete store (one more Food expense) and at the older
    salary file (one more salary period). *)
Lemma load_after_append_witness :
  (exists df' fs',
     (add_entry "2024-07-03" "Food" 9 50 ≫= fun _ => load_data) tracker_fs = (Ok df', fs')
     /\ records df' = june_expenses ++ [mkExpense "2024-07-03" "Food" 9 50])
  /\
  (exists sd' fs',
     (add_salary iso_to_datetime iso_datetime_csv
        (PyDate (mkDate 2024 7 16)) (PyDate (mkDate 2024 7 29)) 530
        (PyDate (mkDate 2024 7 30))
        ≫= fun _ => load_salary_data iso_to_datetime) old_salary_fs
     = (Ok sd', fs')
     /\ map (entry_of iso_to_datetime) (records sd')
        = [(Some (mkTimestamp 2024 6 17 0), Some (mkTimestamp 2024 7 1 0), 500,
            Some (mkTimestamp 2024 7 1 0));
           (Some (mkTimestamp 2024 7 2 0), Some (mkTimestamp 2024 7 15 0), 520,
            Some (mkTimestamp 2024 7 15 0));
           (Some (mkTimestamp 2024 7 16 0), Some (mkTimestamp 2024 7 29 0), 530,
            Some (mkTimestamp 2024 7 30 0))]).
Proof.
  split.
  - destruct (proj1 (load_after_append iso_to_datetime iso_datetime_csv tracker_fs)
                (mkDataFrame EXPENSE_COLUMNS (RangeIndex june_expenses))
                "2024-07-03"%string "Food"%string 9 50 eq_refl)
      as (df' & fs' & Hrun & Hrec & _).
    exists df', fs'. split; [exact Hrun | exact Hrec].
  - destruct (load_salary_data iso_to_datetime old_salary_fs) as [r fs0] eqn:Hload.
    vm_compute in Hload. injection Hload as <- <-.
    destruct (proj2 (load_after_append iso_to_datetime iso_datetime_csv old_salary_fs)
                _ (PyDate (mkDate 2024 7 16)) (PyDate (mkDate 2024 7 29)) 530
                (PyDate (mkDate 2024 7 30)) eq_refl)
      as (sd' & fs' & Hrun & _ & _ & _ & Hent).
    exists sd', fs'. split; [exact Hrun|].
    rewrite (Hent eq_refl eq_refl). reflexivity.
Defined.

(** C8 at the concrete store (the second expense deleted) and at the
    older salary file (its first period deleted). *)
Lemma load_after_delete_witness :
  (exists df' fs',
     (delete_confirmation iso_to_datetime iso_datetime_csv 1 false ≫= fun _ => load_data)
       tracker_fs = (Ok df', fs')
     /\ records df'
        = [mkExpense "2024-06-01" "Food" 20 50; mkExpense "2024-06-09" "Food" 12 50;
           mkExpense "2024-07-02" "Groceries" 31 50]
     /\ index df' = [0; 1; 2]%nat)
  /\
  (exists sd' fs',
     (delete_confirmation iso_to_datetime iso_datetime_csv 0 true
        ≫= fun _ => load_salary_data iso_to_datetime) old_salary_fs
     = (Ok sd', fs')
     /\ records sd'
        = [mkSalary (Str "2024-07-02") (Str "2024-07-15") 520 (Str "2024-07-15")]
     /\ index sd' = [0%nat]).
Proof.
  split.
  - destruct (proj1 (load_after_delete iso_to_datetime iso_datetime_csv tracker_fs 1)
                (mkDataFrame EXPENSE_COLUMNS (RangeIndex june_expenses)) eq_refl)
      as (df' & fs' & Hrun & Hrec & _ & Hidx & _).
    + vm_compute. lia.
    + exists df', fs'. split; [exact Hrun|]. split; [exact Hrec | exact Hidx].
  - destruct (load_salary_data iso_to_datetime old_salary_fs) as [r fs0] eqn:Hload.
    vm_compute in Hload. injection Hload as <- <-.
    destruct (proj2 (load_after_delete iso_to_datetime iso_datetime_csv old_salary_fs 0)
                _ eq_refl)
      as (sd' & fs' & Hrun & Hrec & _ & Hidx & _).
    + vm_compute. lia.
    + exists sd', fs'. split; [exact Hrun|]. split; [exact Hrec | exact Hidx].
Defined.

(** C9 at the salary file with a Pay Date that is no date (the 480 of
    the period starting on 2024-06-15 are part of the June total and
    the entry is in no table), and at the store the application writes
    when a salary is added to an older file (the 530 of the period paid
    on 2024-08-01 are part of the July total and the entry is in no
    table). *)
Lemma invalid_pay_date_still_counts_witness :
  (get_total_salary_for_month iso_text_to_datetime "2024-06" odd_pay_date_fs
   = (Ok (500 + 480 + 510), odd_pay_date_fs)
   /\ (forall m,
         1%nat ∉ index (salary_for_month iso_text_to_datetime iso_guess_datetime_format
                          iso_strptime
                          (mkDataFrame SALARY_COLUMNS
                             (RangeIndex
                                [read_record june_salary;
                                 mkSalary (Str "2024-06-15") (Str "2024-06-28") 480 (Str "soon");
                                 mkSalary (Str "2024-06-29") (Str "2024-07-12") 510 NaN])) m)))
  /\
  (get_total_salary_for_month iso_text_to_datetime "2024-07" mixed_pay_date_fs
   = (Ok (520 + 530), mixed_pay_date_fs)
   /\ (forall m,
         2%nat ∉ index (salary_for_month iso_text_to_datetime iso_guess_datetime_format
                          iso_strptime
                          (mkDataFrame SALARY_COLUMNS
                             (RangeIndex (map read_record mixed_pay_date_records))) m))).
Proof.
  split.
  - destruct (invalid_pay_date_still_counts iso_text_to_datetime iso_guess_datetime_format
                iso_strptime odd_pay_date_fs
                (mkDataFrame EXPENSE_COLUMNS [])
                (mkDataFrame SALARY_COLUMNS
                   (RangeIndex
                      [read_record june_salary;
                       mkSalary (Str "2024-06-15") (Str "2024-06-28") 480 (Str "soon");
                       mkSalary (Str "2024-06-29") (Str "2024-07-12") 510 NaN]))
                "2024-06"
                [read_record june_salary]
                [mkSalary (Str "2024-06-29") (Str "2024-07-12") 510 NaN]
                (mkSalary (Str "2024-06-15") (Str "2024-06-28") 480 (Str "soon"))
                eq_refl eq_refl (or_intror (or_intror eq_refl)) eq_refl eq_refl)
      as (Htotal & _ & Hidx & _).
    split; [exact Htotal | exact Hidx].
  - destruct (invalid_pay_date_still_counts iso_text_to_datetime iso_guess_datetime_format
                iso_strptime mixed_pay_date_fs
                (mkDataFrame EXPENSE_COLUMNS (RangeIndex [mkExpense "2024-06-01" "Food" 20 50]))
                (mkDataFrame SALARY_COLUMNS
                   (RangeIndex (map read_record mixed_pay_date_records)))
                "2024-07"
                [mkSalary (Str "2024-06-17") (Str "2024-07-01") 500 (Str "2024-07-01 00:00:00");
                 mkSalary (Str "2024-07-02") (Str "2024-07-15") 520 (Str "2024-07-15 00:00:00")]
                []
                (mkSalary (Str "2024-07-16") (Str "2024-07-29") 530 (Str "2024-08-01"))
                eq_refl eq_refl (or_intror (or_intror eq_refl)) eq_refl eq_refl)
      as (Htotal & _ & Hidx & _).
    split; [exact Htotal | exact Hidx].
Defined.

(** * Further properties of the stores and of the page *)

Lemma slice7_strftime_Ymd (d : date) : slice7 (strftime_Ymd d) = strftime_Ym (midnight d).
Proof. destruct d as [y m dd]. reflexivity. Qed.

Lemma substring_length_substring (n : nat) (s : string) :
  String.substring 0 (String.length (String.substring 0 n s)) s = String.substring 0 n s.
Proof.
  revert s. induction n as [|n IH]; intros [|c s]; simpl; try reflexivity.
  rewrite IH. reflexivity.
Qed.

Lemma startswith_slice7 (s : string) : startswith s (slice7 s) = true.
Proof.
  unfold startswith, slice7. apply String.prefix_correct.
  apply substring_length_substring.
Qed.

Lemma startswith_month (s m : string) :
  String.length m = 7%nat -> startswith s m = true <-> slice7 s = m.
Proof.
  intros Hlen. unfold startswith, slice7.
  rewrite String.prefix_correct, Hlen. reflexivity.
Qed.

(** X11. The expenses shown for a month include every expense filed
    under that month in the month universe (the first seven characters
    of its date), and for a month of seven characters they are exactly
    those expenses, in file order. *)
Theorem month_filter_selects_its_bucket (df : DataFrame ExpenseRow) (month : string) :
  (forall r, r ∈ records df -> slice7 (Date r) = month ->
             r ∈ records (selected_month_data df month))
  /\ (String.length month = 7%nat ->
      records (selected_month_data df month)
      = List.filter (fun r => bool_decide (slice7 (Date r) = month)) (records df)).
Proof.
  unfold selected_month_data. rewrite records_select. split.
  - intros r Hr <-. apply elem_of_bfilter. split; [apply startswith_slice7 | exact Hr].
  - intros Hlen. apply filter_ext. intros r.
    destruct (startswith (Date r) month) eqn:E.
    + symmetry. apply bool_decide_eq_true. apply startswith_month; assumption.
    + symmetry. apply bool_decide_eq_false. intros H.
      apply (startswith_month _ _ Hlen) in H. congruence.
Qed.

Lemma empty_false_records {R} (df : DataFrame R) (r : R) :
  r ∈ records df -> empty df = false.
Proof.
  unfold empty, records. destruct (rows df); [|reflexivity].
  simpl. intros H. apply elem_of_nil in H. contradiction.
Qed.

Lemma last_of_sorted (l : list string) (x : string) :
  StronglySorted str_le l -> x ∈ l ->
  exists m, last l = Some m /\ m ∈ l /\ str_le x m.
Proof.
  intros Hs. revert x. induction Hs as [|y l Hs IH Hy]; intros x Hx.
  - apply elem_of_nil in Hx. contradiction.
  - destruct l as [|z l].
    + apply list_elem_of_singleton in Hx. subst. exists y.
      split; [reflexivity|]. split; [left|]. apply str_le_lt_eq. right. reflexivity.
    + apply elem_of_cons in Hx. destruct Hx as [-> | Hx].
      * destruct (IH z ltac:(left)) as (m & Hl & Hm & _).
        exists m. split; [exact Hl|]. split; [right; exact Hm|].
        rewrite Forall_forall in Hy. apply Hy. exact Hm.
      * destruct (IH x Hx) as (m & Hl & Hm & Hle).
        exists m. split; [exact Hl|]. split; [right; exact Hm | exact Hle].
Qed.

Lemma CATEGORY_BUDGET_getitem_categories (category : string) :
  category ∈ categories ->
  exists b, CATEGORY_BUDGET_getitem category = Ok b /\ (category, b) ∈ CATEGORY_BUDGET.
Proof.
  unfold categories. cbn [map CATEGORY_BUDGET fst]. intros H.
  repeat (apply elem_of_cons in H; destruct H as [-> | H];
          [eexists; split; [reflexivity|]; unfold CATEGORY_BUDGET;
           repeat (first [left; reflexivity | right]) |]).
  apply elem_of_nil in H. contradiction.
Qed.

Lemma CATEGORY_BUDGET_getitem_unknown (category : string) :
  category ∉ categories -> CATEGORY_BUDGET_getitem category = Raise KeyError.
Proof.
  unfold categories, CATEGORY_BUDGET_getitem.
  induction CATEGORY_BUDGET as [|[k b] l IH]; [reflexivity|].
  cbn [map fst List.find]. rewrite not_elem_of_cons. intros [Hne Hl].
  destruct (String.eqb_spec k category) as [E|_]; [congruence|]. auto.
Qed.

Lemma index_select_row {R} (mask : R -> bool) (df : DataFrame R) (i : nat) :
  i ∈ index (select mask df) -> exists r, (i, r) ∈ rows df /\ mask r = true.
Proof.
  unfold index, select. cbn [rows]. rewrite elem_of_map.
  intros ([j r] & -> & Hin). apply elem_of_bfilter in Hin.
  exists r. simpl in *. tauto.
Qed.

(** X17. The per-category series of the overview (the bar chart) has
    one entry for each category present among the month's expenses and
    no other, the categories in strictly ascending order, each with the
    sum of the amounts spent in that category. *)
Theorem overview_has_one_sum_per_category (monthly_data : DataFrame ExpenseRow) :
  empty monthly_data = false ->
  exists o,
    monthly_overview monthly_data = Some o
    /\ StronglySorted str_lt (map fst (total_spent_by_category o))
    /\ (forall k, k ∈ map fst (total_spent_by_category o) <->
                  exists r, r ∈ records monthly_data /\ Category r = k)
    /\ (forall k v, (k, v) ∈ total_spent_by_category o ->
          v = Series_sum (map Amount_Spent
                 (List.filter (fun r => String.eqb (Category r) k) (records monthly_data)))).
Proof.
  intros Hne. rewrite (monthly_overview_run _ Hne). eexists. split; [reflexivity|].
  cbn [total_spent_by_category]. rewrite groupby_sum_keys. split; [|split].
  - apply sorted_lt, NoDup_unique.
  - intros k. rewrite elem_of_sorted, elem_of_unique, elem_of_map.
    split; intros (r & H1 & H2); exists r; auto.
  - intros k v Hin. unfold groupby_sum in Hin. apply elem_of_map in Hin.
    destruct Hin as (k' & [= -> ->] & _). reflexivity.
Qed.

Section FurtherFacts.

Variable to_datetime : string -> option Timestamp.
Variable datetime_csv : Timestamp -> string.
Variable guess_datetime_format : string -> option string.
Variable strptime : string -> string -> option Timestamp.

Lemma get_total_salary_for_month_state (month : string) (fs : FileSystem) :
  snd (get_total_salary_for_month to_datetime month fs) = fs.
Proof.
  unfold get_total_salary_for_month, mbind, IO_bind, lift.
  destruct (load_salary_data to_datetime fs) as [[sd|e] fs'] eqn:Hload.
  - pose proof (load_salary_data_state to_datetime fs) as Hs.
    rewrite Hload in Hs. simpl in Hs. subst fs'.
    destruct (mapR _ _); [|reflexivity].
    destruct (mapR _ _); reflexivity.
  - pose proof (load_salary_data_state to_datetime fs) as Hs.
    rewrite Hload in Hs. exact Hs.
Qed.

(** X2. Loading either store, computing the salary total of a month and
    computing the monthly income never write: the files are as before,
    whether the operation returns or raises. *)
Theorem reads_leave_files_unchanged (fs : FileSystem) (month : string) :
  snd (load_data fs) = fs
  /\ snd (load_salary_data to_datetime fs) = fs
  /\ snd (get_total_salary_for_month to_datetime month fs) = fs
  /\ snd (total_monthly_income to_datetime month fs) = fs.
Proof.
  split; [apply load_data_state|]. split; [apply load_salary_data_state|].
  split; [apply get_total_salary_for_month_state|].
  unfold total_monthly_income, mbind, IO_bind.
  pose proof (get_total_salary_for_month_state month fs) as H.
  destruct (get_total_salary_for_month to_datetime month fs) as [[z|e] fs']; exact H.
Qed.

Lemma add_entry_raises (fs fs' : FileSystem) (e : exn)
    (date category : string) (spent budgeted : Z) :
  add_entry date category spent budgeted fs = (Raise e, fs') -> fs' = fs.
Proof.
  unfold add_entry, save_data, write_DATA_FILE, mbind, IO_bind. rewrite load_data_run.
  destruct (DATA_FILE fs) as [[|t]|]; simpl; intros H; congruence.
Qed.

Lemma add_salary_raises (fs fs' : FileSystem) (e : exn)
    (start_date end_date : value) (salary : Z) (pay_date : value) :
  add_salary to_datetime datetime_csv start_date end_date salary pay_date fs
  = (Raise e, fs') -> fs' = fs.
Proof.
  unfold add_salary, save_salary_data, write_SALARY_FILE, mbind, IO_bind.
  rewrite load_salary_data_run.
  destruct (SALARY_FILE fs) as [[|[recs|recs]]|]; simpl; try (intros H; congruence).
  destruct (forallb _ recs); simpl; intros H; congruence.
Qed.

Lemma delete_confirmation_raises (fs fs' : FileSystem) (e : exn)
    (i : nat) (is_salary : bool) :
  delete_confirmation to_datetime datetime_csv i is_salary fs = (Raise e, fs') -> fs' = fs.
Proof.
  unfold delete_confirmation, save_data, write_DATA_FILE, save_salary_data,
    write_SALARY_FILE, mbind, IO_bind, lift.
  destruct is_salary.
  - rewrite load_salary_data_run.
    destruct (SALARY_FILE fs) as [[|[recs|recs]]|]; simpl; try (intros H; congruence);
      try (destruct (forallb _ recs); simpl; try (intros H; congruence));
      destruct (drop i _); simpl; intros H; congruence.
  - rewrite load_data_run.
    destruct (DATA_FILE fs) as [[|t]|]; simpl; try (intros H; congruence);
      destruct (drop i _); simpl; intros H; congruence.
Qed.

(** X3. An append or a delete that raises has written nothing: both
    files are as they were before the operation. *)
Theorem failed_writes_change_nothing (fs fs' : FileSystem) (e : exn) :
  (forall (date category : string) (spent budgeted : Z),
     add_entry date category spent budgeted fs = (Raise e, fs') -> fs' = fs)
  /\ (forall (start_date end_date : value) (salary : Z) (pay_date : value),
        add_salary to_datetime datetime_csv start_date end_date salary pay_date fs
        = (Raise e, fs') -> fs' = fs)
  /\ (forall (i : nat) (is_salary : bool),
        delete_confirmation to_datetime datetime_csv i is_salary fs = (Raise e, fs') ->
        fs' = fs).
Proof.
  split; [|split].
  - intros. eapply add_entry_raises. eassumption.
  - intros. eapply add_salary_raises. eassumption.
  - intros. eapply delete_confirmation_raises. eassumption.
Qed.

(** X4. Deleting at an index that is not below the number of loaded
    entries raises [KeyError] and leaves the files as they were, in
    both stores; in particular every delete on an empty store raises. *)
Theorem delete_out_of_range_raises (fs : FileSystem) (i : nat) :
  (forall df : DataFrame ExpenseRow,
     load_data fs = (Ok df, fs) -> (length (records df) <= i)%nat ->
     delete_confirmation to_datetime datetime_csv i false fs = (Raise KeyError, fs))
  /\ (forall sd : DataFrame SalaryRow,
        load_salary_data to_datetime fs = (Ok sd, fs) -> (length (records sd) <= i)%nat ->
        delete_confirmation to_datetime datetime_csv i true fs = (Raise KeyError, fs)).
Proof.
  split.
  - intros df Hload Hi.
    pose proof (load_data_inv _ _ _ Hload) as (_ & _ & Hrows & _).
    unfold delete_confirmation, mbind, IO_bind, lift. rewrite Hload.
    rewrite (drop_out_of_range i df Hrows Hi). reflexivity.
  - intros sd Hload Hi.
    pose proof (load_salary_data_inv _ _ _ _ Hload) as (_ & _ & Hrows & _).
    unfold delete_confirmation, mbind, IO_bind, lift. rewrite Hload.
    rewrite (drop_out_of_range i sd Hrows Hi). reflexivity.
Qed.

Lemma load_salary_data_current (fs : FileSystem) (recs : list SalaryRecord) :
  SALARY_FILE fs = Some (Csv (WithPayDate recs)) ->
  load_salary_data to_datetime fs
  = (Ok (mkDataFrame SALARY_COLUMNS (RangeIndex (map read_record recs))), fs).
Proof. intros H. rewrite load_salary_data_run, H. reflexivity. Qed.

(** X5. After any successful salary append or salary delete the salary
    file has the Pay Date column, also when it had none before (the
    loaded frame has the column, derived when the file lacks it, and
    the frame is written with its own columns): the next load succeeds
    without deriving anything and returns the records of the file,
    their pay dates as texts or missing. *)
Theorem salary_write_adds_pay_date_column (fs fs' : FileSystem) :
  (exists s e z p, add_salary to_datetime datetime_csv s e z p fs = (Ok tt, fs'))
  \/ (exists i, delete_confirmation to_datetime datetime_csv i true fs = (Ok tt, fs')) ->
  exists recs sd,
    SALARY_FILE fs' = Some (Csv (WithPayDate recs))
    /\ load_salary_data to_datetime fs' = (Ok sd, fs')
    /\ records sd = map read_record recs
    /\ Forall (fun r => textual (Pay_Date r) = true) (records sd).
Proof.
  assert (Hgen : forall recs, SALARY_FILE fs' = Some (Csv (WithPayDate recs)) ->
            exists recs sd,
              SALARY_FILE fs' = Some (Csv (WithPayDate recs))
              /\ load_salary_data to_datetime fs' = (Ok sd, fs')
              /\ records sd = map read_record recs
              /\ Forall (fun r => textual (Pay_Date r) = true) (records sd)).
  { intros recs Hfile. exists recs. eexists. split; [exact Hfile|].
    split; [apply (load_salary_data_current _ _ Hfile)|].
    assert (Hrec : records (mkDataFrame SALARY_COLUMNS (RangeIndex (map read_record recs)))
                   = map read_record recs).
    { unfold records. cbn [rows]. apply RangeIndex_records. }
    split; [exact Hrec|]. rewrite Hrec. apply Forall_forall. intros r Hr.
    apply elem_of_map in Hr. destruct Hr as (c & -> & _). apply textual_read_cell. }
  intros [(s & e & z & p & H) | (i & H)].
  - unfold add_salary, mbind, IO_bind in H.
    destruct (load_salary_data to_datetime fs) as [[sd|x] fs0] eqn:Hload; [|discriminate].
    pose proof (load_salary_data_inv _ _ _ _ Hload) as (_ & Hcols & _).
    rewrite save_salary_data_run in H by (unfold concat; cbn [columns]; exact Hcols).
    injection H as <-. eapply Hgen. reflexivity.
  - unfold delete_confirmation, mbind, IO_bind, lift in H.
    destruct (load_salary_data to_datetime fs) as [[sd|x] fs0] eqn:Hload; [|discriminate].
    pose proof (load_salary_data_inv _ _ _ _ Hload) as (_ & Hcols & _).
    destruct (drop i sd) as [sd'|x] eqn:Hdrop; [|discriminate].
    cbn [fmap result_fmap] in H.
    assert (Hcols' : columns (reset_index sd') = SALARY_COLUMNS).
    { unfold drop in Hdrop. destruct (bool_decide (i ∈ index sd)); [|discriminate].
      injection Hdrop as <-. exact Hcols. }
    rewrite save_salary_data_run in H by exact Hcols'.
    injection H as <-. eapply Hgen. reflexivity.
Qed.

(** X6. Appending an entry and then deleting at the index it received
    (the former number of entries) gives back the collection that was
    loaded before, in both stores (salary rows as read from CSV), and
    does not touch the other store. *)
Theorem append_then_delete_last (fs : FileSystem) :
  (forall (df : DataFrame ExpenseRow) (date category : string) (spent budgeted : Z),
     load_data fs = (Ok df, fs) ->
     exists df' fs',
       (add_entry date category spent budgeted
          ≫= fun _ => delete_confirmation to_datetime datetime_csv (length (records df)) false
          ≫= fun _ => load_data) fs = (Ok df', fs')
       /\ records df' = records df
       /\ SALARY_FILE fs' = SALARY_FILE fs)
  /\ (forall (sd : DataFrame SalaryRow) (s e : value) (z : Z) (p : value),
        load_salary_data to_datetime fs = (Ok sd, fs) ->
        exists sd' fs',
          (add_salary to_datetime datetime_csv s e z p
             ≫= fun _ => delete_confirmation to_datetime datetime_csv (length (records sd)) true
             ≫= fun _ => load_salary_data to_datetime) fs = (Ok sd', fs')
          /\ records sd' = map (csv_round_trip datetime_csv) (records sd)
          /\ DATA_FILE fs' = DATA_FILE fs).
Proof.
  split.
  - intros df date category spent budgeted Hload.
    set (e := mkExpense date category spent budgeted).
    set (fs1 := mkFS (Some (Csv (records df ++ [e]))) (SALARY_FILE fs)).
    assert (Hload1 : load_data fs1
                     = (Ok (mkDataFrame EXPENSE_COLUMNS (RangeIndex (records df ++ [e]))), fs1)).
    { rewrite load_data_run. reflexivity. }
    assert (Hrec1 : records (mkDataFrame EXPENSE_COLUMNS (RangeIndex (records df ++ [e])))
                    = records df ++ [e]).
    { unfold records at 1. cbn [rows]. apply RangeIndex_records. }
    assert (Hdel := delete_entry_run to_datetime datetime_csv fs1 _ (length (records df)) Hload1).
    rewrite Hrec1 in Hdel.
    assert (Hrm : remove_at (length (records df)) (records df ++ [e]) = records df).
    { unfold remove_at. rewrite take_app_length.
      rewrite skipn_all2 by (rewrite length_app; simpl; lia). apply app_nil_r. }
    rewrite Hrm in Hdel.
    unfold mbind, IO_bind. rewrite (add_entry_run _ _ _ _ _ _ Hload). fold e fs1.
    rewrite Hdel by (rewrite length_app; simpl; lia).
    rewrite load_data_run. cbn [DATA_FILE SALARY_FILE].
    eexists; eexists. split; [reflexivity|]. split; [|reflexivity].
    unfold records at 1. cbn [rows]. apply RangeIndex_records.
  - intros sd s e z p Hload.
    set (r := mkSalary s e z p).
    set (fs1 := mkFS (DATA_FILE fs)
                  (Some (Csv (WithPayDate (map (to_csv_record datetime_csv) (records sd ++ [r])))))).
    assert (Hload1 : load_salary_data to_datetime fs1
                     = (Ok (mkDataFrame SALARY_COLUMNS
                              (RangeIndex (map read_record
                                 (map (to_csv_record datetime_csv) (records sd ++ [r]))))), fs1)).
    { rewrite load_salary_data_run. reflexivity. }
    assert (Hrec1 : records (mkDataFrame SALARY_COLUMNS
                              (RangeIndex (map read_record
                                 (map (to_csv_record datetime_csv) (records sd ++ [r])))))
                    = map (csv_round_trip datetime_csv) (records sd ++ [r])).
    { unfold records at 1. cbn [rows]. rewrite RangeIndex_records, map_map. reflexivity. }
    assert (Hdel := delete_salary_run to_datetime datetime_csv fs1 _ (length (records sd)) Hload1).
    rewrite Hrec1 in Hdel.
    assert (Hrm : remove_at (length (records sd))
                    (map (csv_round_trip datetime_csv) (records sd ++ [r]))
                  = map (csv_round_trip datetime_csv) (records sd)).
    { rewrite remove_at_map. f_equal. unfold remove_at. rewrite take_app_length.
      rewrite skipn_all2 by (rewrite length_app; simpl; lia). apply app_nil_r. }
    rewrite Hrm in Hdel.
    unfold mbind, IO_bind. rewrite (add_salary_run _ _ _ _ _ _ _ _ Hload). fold r fs1.
    rewrite Hdel by (rewrite length_map, length_app; simpl; lia).
    rewrite load_salary_data_run. cbn [DATA_FILE SALARY_FILE].
    eexists; eexists. split; [reflexivity|]. split; [|reflexivity].
    unfold records at 1. cbn [rows]. rewrite RangeIndex_records, !map_map.
    apply map_ext. intros x.
    change (csv_round_trip datetime_csv (csv_round_trip datetime_csv x)
            = csv_round_trip datetime_csv x).
    unfold csv_round_trip at 1 3. apply csv_round_trip_read_record.
Qed.

(** X7. A write to the expense store and a write to the salary store
    commute: the files after an expense append or delete followed by a
    salary append or delete are the files after the same two operations
    in the other order, in every state and whether they succeed or
    raise. *)
Theorem expense_and_salary_writes_commute
    (fs : FileSystem) (date category : string) (spent budgeted : Z)
    (s e : value) (z : Z) (p : value) (i j : nat) :
  let add_e fs := snd (add_entry date category spent budgeted fs) in
  let del_e fs := snd (delete_confirmation to_datetime datetime_csv i false fs) in
  let add_s fs := snd (add_salary to_datetime datetime_csv s e z p fs) in
  let del_s fs := snd (delete_confirmation to_datetime datetime_csv j true fs) in
  add_s (add_e fs) = add_e (add_s fs)
  /\ del_s (add_e fs) = add_e (del_s fs)
  /\ add_s (del_e fs) = del_e (add_s fs)
  /\ del_s (del_e fs) = del_e (del_s fs).
Proof.
  assert (He : forall fs0, exists d,
             (forall sf, snd (add_entry date category spent budgeted (mkFS (DATA_FILE fs0) sf))
                         = mkFS d sf)).
  { intros fs0. unfold add_entry, mbind, IO_bind.
    destruct (DATA_FILE fs0) as [[|t]|] eqn:E.
    - exists (Some Unreadable). intros sf. rewrite load_data_run. reflexivity.
    - eexists. intros sf. rewrite load_data_run. reflexivity.
    - eexists. intros sf. rewrite load_data_run. reflexivity. }
  assert (Hde : forall fs0, exists d,
             (forall sf, snd (delete_confirmation to_datetime datetime_csv i false
                                (mkFS (DATA_FILE fs0) sf)) = mkFS d sf)).
  { intros fs0. unfold delete_confirmation, mbind, IO_bind, lift.
    destruct (DATA_FILE fs0) as [[|t]|] eqn:E.
    - exists (Some Unreadable). intros sf. rewrite load_data_run. reflexivity.
    - destruct (drop i (mkDataFrame EXPENSE_COLUMNS (RangeIndex t))) as [df'|x] eqn:D.
      + eexists. intros sf. rewrite load_data_run. cbn [DATA_FILE]. rewrite D. reflexivity.
      + exists (Some (Csv t)). intros sf. rewrite load_data_run. cbn [DATA_FILE].
        rewrite D. reflexivity.
    - exists None. intros sf. rewrite load_data_run. reflexivity. }
  assert (Hs : forall fs0, exists sf,
             (forall d, snd (add_salary to_datetime datetime_csv s e z p
                               (mkFS d (SALARY_FILE fs0))) = mkFS d sf)).
  { intros fs0. unfold add_salary, mbind, IO_bind.
    destruct (load_salary_data to_datetime (mkFS None (SALARY_FILE fs0))) as [[sd|x] f] eqn:L.
    - eexists. intros d.
      pose proof (load_salary_data_ext to_datetime (mkFS d (SALARY_FILE fs0))
                    (mkFS None (SALARY_FILE fs0)) eq_refl) as Hx.
      pose proof (load_salary_data_state to_datetime (mkFS d (SALARY_FILE fs0))) as Hst.
      destruct (load_salary_data to_datetime (mkFS d (SALARY_FILE fs0))) as [r f'].
      rewrite L in Hx. simpl in Hx, Hst. subst. reflexivity.
    - exists (SALARY_FILE fs0). intros d.
      pose proof (load_salary_data_ext to_datetime (mkFS d (SALARY_FILE fs0))
                    (mkFS None (SALARY_FILE fs0)) eq_refl) as Hx.
      pose proof (load_salary_data_state to_datetime (mkFS d (SALARY_FILE fs0))) as Hst.
      destruct (load_salary_data to_datetime (mkFS d (SALARY_FILE fs0))) as [r f'].
      rewrite L in Hx. simpl in Hx, Hst. subst. reflexivity. }
  assert (Hds : forall fs0, exists sf,
             (forall d, snd (delete_confirmation to_datetime datetime_csv j true
                               (mkFS d (SALARY_FILE fs0))) = mkFS d sf)).
  { intros fs0. unfold delete_confirmation, mbind, IO_bind, lift.
    destruct (load_salary_data to_datetime (mkFS None (SALARY_FILE fs0))) as [[sd|x] f] eqn:L.
    - destruct (drop j sd) as [sd'|x] eqn:D.
      + eexists. intros d.
        pose proof (load_salary_data_ext to_datetime (mkFS d (SALARY_FILE fs0))
                      (mkFS None (SALARY_FILE fs0)) eq_refl) as Hx.
        pose proof (load_salary_data_state to_datetime (mkFS d (SALARY_FILE fs0))) as Hst.
        destruct (load_salary_data to_datetime (mkFS d (SALARY_FILE fs0))) as [r f'].
        rewrite L in Hx. simpl in Hx, Hst. subst. rewrite D. reflexivity.
      + exists (SALARY_FILE fs0). intros d.
        pose proof (load_salary_data_ext to_datetime (mkFS d (SALARY_FILE fs0))
                      (mkFS None (SALARY_FILE fs0)) eq_refl) as Hx.
        pose proof (load_salary_data_state to_datetime (mkFS d (SALARY_FILE fs0))) as Hst.
        destruct (load_salary_data to_datetime (mkFS d (SALARY_FILE fs0))) as [r f'].
        rewrite L in Hx. simpl in Hx, Hst. subst. rewrite D. reflexivity.
    - exists (SALARY_FILE fs0). intros d.
      pose proof (load_salary_data_ext to_datetime (mkFS d (SALARY_FILE fs0))
                    (mkFS None (SALARY_FILE fs0)) eq_refl) as Hx.
      pose proof (load_salary_data_state to_datetime (mkFS d (SALARY_FILE fs0))) as Hst.
      destruct (load_salary_data to_datetime (mkFS d (SALARY_FILE fs0))) as [r f'].
      rewrite L in Hx. simpl in Hx, Hst. subst. reflexivity. }
  intros add_e del_e add_s del_s. subst add_e del_e add_s del_s.
  destruct fs as [d0 s0].
  destruct (He (mkFS d0 s0)) as (d1 & H1). destruct (Hde (mkFS d0 s0)) as (d2 & H2).
  destruct (Hs (mkFS d0 s0)) as (s1 & H3). destruct (Hds (mkFS d0 s0)) as (s2 & H4).
  cbn [DATA_FILE SALARY_FILE] in *.
  rewrite !H1, !H2, !H3, !H4. auto.
Qed.

Lemma mapR_strict_column_raises {R} (f : R -> value) (l : list R) :
  forallb (fun r => parses to_datetime (f r)) l = false ->
  mapR (to_datetime_strict to_datetime) (map f l) = Raise ValueError.
Proof.
  intros H. apply mapR_strict_not_parsed.
  rewrite <- H. clear H. induction l as [|r l IH]; simpl; [reflexivity|].
  rewrite IH. reflexivity.
Qed.

(** X8. When some loaded salary entry has a Start Date or an End Date
    that is a text but no date, the salary total of every month raises
    [ValueError], and so does the monthly income; nothing is written.
    (Only the Pay Date is converted with [errors='coerce'].) *)
Theorem total_salary_raises_on_bad_date
    (fs : FileSystem) (sd : DataFrame SalaryRow) (month : string) :
  load_salary_data to_datetime fs = (Ok sd, fs) ->
  forallb (fun r => parses to_datetime (Start_Date r) && parses to_datetime (End_Date r))
          (records sd) = false ->
  get_total_salary_for_month to_datetime month fs = (Raise ValueError, fs)
  /\ total_monthly_income to_datetime month fs = (Raise ValueError, fs).
Proof.
  intros Hload Hbad.
  assert (Hget : get_total_salary_for_month to_datetime month fs = (Raise ValueError, fs)).
  { unfold get_total_salary_for_month, mbind, IO_bind, lift. rewrite Hload.
    destruct (forallb (fun r => parses to_datetime (Start_Date r)) (records sd)) eqn:Hs.
    - rewrite (mapR_strict_column _ Start_Date _ Hs).
      rewrite (records_assign_map "Start Date" set_Start_Date
                 (fun r => datetime_of_cell to_datetime (Start_Date r))).
      rewrite map_map. cbn [End_Date set_Start_Date].
      rewrite (mapR_strict_column_raises (fun x => End_Date x)); [reflexivity|].
      apply not_true_is_false. intros He.
      rewrite forallb_forall in Hs, He.
      assert (forallb (fun r => parses to_datetime (Start_Date r)
                                && parses to_datetime (End_Date r)) (records sd) = true);
        [|congruence].
      apply forallb_forall. intros r Hr. rewrite (Hs r Hr), (He r Hr). reflexivity.
    - rewrite (mapR_strict_column_raises Start_Date _ Hs). reflexivity. }
  split; [exact Hget|].
  unfold total_monthly_income, mbind, IO_bind. rewrite Hget. reflexivity.
Qed.

(** X9. For a month in which no loaded salary entry starts (in
    particular when the salary store is empty or its file is missing),
    the salary total is 0 and the monthly income is the base income. *)
Theorem no_salary_starts_in_month
    (fs : FileSystem) (sd : DataFrame SalaryRow) (month : string) :
  load_salary_data to_datetime fs = (Ok sd, fs) ->
  forallb (fun r => parses to_datetime (Start_Date r) && parses to_datetime (End_Date r))
          (records sd) = true ->
  forallb (fun r => negb (starts_in to_datetime month r)) (records sd) = true ->
  get_total_salary_for_month to_datetime month fs = (Ok 0, fs)
  /\ total_monthly_income to_datetime month fs = (Ok MONTHLY_INCOME, fs).
Proof.
  intros Hload Hp Hnone.
  assert (Hget : get_total_salary_for_month to_datetime month fs = (Ok 0, fs)).
  { rewrite (get_total_salary_for_month_run _ _ _ _ Hload Hp).
    unfold salaries_starting_in.
    assert (Hf : List.filter (starts_in to_datetime month) (records sd) = []).
    { revert Hnone. generalize (records sd) as l.
      induction l as [|r l IH]; [reflexivity|]. simpl. intros Hnone.
      apply andb_true_iff in Hnone. destruct Hnone as [Hr Hl].
      apply negb_true_iff in Hr. rewrite Hr. auto. }
    rewrite Hf. reflexivity. }
  split; [exact Hget|].
  unfold total_monthly_income, mbind, IO_bind. rewrite Hget. reflexivity.
Qed.

Lemma to_datetime_cell_idemp (format format' : option string) (v : value) :
  to_datetime_cell to_datetime strptime format' (to_datetime_cell to_datetime strptime format v)
  = to_datetime_cell to_datetime strptime format v.
Proof.
  destruct (to_datetime_cell_cases to_datetime strptime format v) as [-> | [t ->]];
    reflexivity.
Qed.

(** X10. [convert_to_datetime] keeps the rows, their labels and their
    Start Date, End Date and Salary; afterwards every Pay Date is a
    timestamp or [NaT]; converting a converted frame changes nothing. *)
Theorem convert_to_datetime_is_idempotent (sd : DataFrame SalaryRow) :
  index (convert_to_datetime to_datetime guess_datetime_format strptime sd) = index sd
  /\ map (fun r => (Start_Date r, End_Date r, Salary r))
         (records (convert_to_datetime to_datetime guess_datetime_format strptime sd))
     = map (fun r => (Start_Date r, End_Date r, Salary r)) (records sd)
  /\ Forall (fun r => Pay_Date r = NaT \/ exists t, Pay_Date r = Datetime t)
            (records (convert_to_datetime to_datetime guess_datetime_format strptime sd))
  /\ convert_to_datetime to_datetime guess_datetime_format strptime
       (convert_to_datetime to_datetime guess_datetime_format strptime sd)
     = convert_to_datetime to_datetime guess_datetime_format strptime sd.
Proof.
  split; [|split; [|split]].
  - unfold index. rewrite rows_convert_to_datetime, map_map. reflexivity.
  - rewrite records_convert_to_datetime, map_map. reflexivity.
  - rewrite records_convert_to_datetime. apply Forall_forall. intros r Hr.
    apply elem_of_map in Hr. destruct Hr as (r0 & -> & _). cbn [Pay_Date set_Pay_Date].
    unfold converted_pay_date. apply to_datetime_cell_cases.
  - set (sd1 := convert_to_datetime to_datetime guess_datetime_format strptime sd).
    assert (Hrows : rows (convert_to_datetime to_datetime guess_datetime_format strptime sd1)
                    = rows sd1).
    { rewrite (rows_convert_to_datetime _ _ _ sd1). unfold sd1 at 2 3.
      rewrite rows_convert_to_datetime, map_map. apply map_ext. intros [i r].
      cbn [fst snd]. f_equal. unfold converted_pay_date, set_Pay_Date.
      cbn [Pay_Date Start_Date End_Date Salary].
      rewrite to_datetime_cell_idemp. reflexivity. }
    assert (Hcols : columns (convert_to_datetime to_datetime guess_datetime_format strptime sd1)
                    = columns sd1).
    { unfold convert_to_datetime at 1. unfold assign at 1. cbn [columns].
      rewrite bool_decide_eq_true_2; [reflexivity|].
      unfold sd1, convert_to_datetime, assign. cbn [columns].
      case_bool_decide as H; [exact H|]. apply elem_of_app. right. left. }
    destruct (convert_to_datetime to_datetime guess_datetime_format strptime sd1) as [c1 r1].
    destruct sd1 as [c2 r2].
    simpl in *. congruence.
Qed.

(** X12. When some month is offered, the month selected first is the
    last of the list, and no offered month is later than it. *)
Theorem default_month_is_latest
    (df : DataFrame ExpenseRow) (sd : DataFrame SalaryRow) (m0 : string) :
  m0 ∈ available_months to_datetime guess_datetime_format strptime df sd ->
  exists m,
    default_month_filter (available_months to_datetime guess_datetime_format strptime df sd)
    = Some m
    /\ m ∈ available_months to_datetime guess_datetime_format strptime df sd
    /\ str_le m0 m.
Proof.
  intros H. unfold default_month_filter.
  apply last_of_sorted; [|exact H]. unfold available_months. apply sorted_le.
Qed.

(** X13. Every month offered for selection has something to show: its
    expense table or its salary table is not empty. *)
Theorem every_offered_month_shows_data
    (df : DataFrame ExpenseRow) (sd : DataFrame SalaryRow) (m : string) :
  m ∈ available_months to_datetime guess_datetime_format strptime df sd ->
  empty (selected_month_data df m) = false
  \/ empty (salary_for_month to_datetime guess_datetime_format strptime sd m) = false.
Proof.
  rewrite elem_of_available_months.
  intros [(e & He & Hm) | (s & Hs & Hm)].
  - left. apply (empty_false_records _ e).
    unfold selected_month_data. rewrite records_select. apply elem_of_bfilter.
    split; [|exact He]. rewrite <- Hm. apply startswith_slice7.
  - right.
    apply (empty_false_records _
             (set_Pay_Date s
                (converted_pay_date to_datetime guess_datetime_format strptime
                   (records sd) s))).
    rewrite records_salary_for_month. apply elem_of_map. exists s.
    split; [reflexivity|]. apply elem_of_bfilter. split; [|exact Hs].
    apply bool_decide_eq_true. exact Hm.
Qed.

(** X14. With a category of the select box, the Add Entry button stores
    an entry dated in ISO form that carries the fixed budget of its
    category; after it the month of the date is offered for selection
    and the entry is among the expenses shown for that month. A category
    that is not in the budget table raises [KeyError] and nothing is
    written. *)
Theorem add_entry_button_files_under_month
    (fs : FileSystem) (df : DataFrame ExpenseRow) (sd : DataFrame SalaryRow)
    (date : date) (category : string) (spent : Z) :
  load_data fs = (Ok df, fs) ->
  (category ∈ categories ->
   exists budgeted df' fs',
     (category, budgeted) ∈ CATEGORY_BUDGET
     /\ (add_entry_button date category spent ≫= fun _ => load_data) fs = (Ok df', fs')
     /\ records df'
        = records df ++ [mkExpense (strftime_Ymd date) category spent budgeted]
     /\ strftime_Ym (midnight date)
        ∈ available_months to_datetime guess_datetime_format strptime df' sd
     /\ mkExpense (strftime_Ymd date) category spent budgeted
        ∈ records (selected_month_data df' (strftime_Ym (midnight date))))
  /\ (category ∉ categories ->
      add_entry_button date category spent fs = (Raise KeyError, fs)).
Proof.
  intros Hload. split.
  - intros Hcat.
    destruct (CATEGORY_BUDGET_getitem_categories category Hcat) as (b & Hb & Hin).
    exists b.
    set (e := mkExpense (strftime_Ymd date) category spent b).
    assert (Hrun : (add_entry_button date category spent ≫= fun _ => load_data) fs
                   = (Ok (mkDataFrame EXPENSE_COLUMNS (RangeIndex (records df ++ [e]))),
                      mkFS (Some (Csv (records df ++ [e]))) (SALARY_FILE fs))).
    { unfold add_entry_button, mbind, IO_bind, lift. rewrite Hb.
      rewrite (add_entry_run _ _ _ _ _ _ Hload). rewrite load_data_run. reflexivity. }
    assert (Hrec : records (mkDataFrame EXPENSE_COLUMNS (RangeIndex (records df ++ [e])))
                   = records df ++ [e]).
    { unfold records at 1. cbn [rows]. apply RangeIndex_records. }
    eexists; eexists. split; [exact Hin|]. split; [exact Hrun|].
    split; [exact Hrec|].
    assert (He : e ∈ records df ++ [e]).
    { apply elem_of_app. right. left. }
    split.
    + apply elem_of_available_months. left. exists e. rewrite Hrec.
      split; [exact He|]. apply slice7_strftime_Ymd.
    + unfold selected_month_data. rewrite records_select, Hrec.
      apply elem_of_bfilter. split; [|exact He].
      rewrite <- slice7_strftime_Ymd. apply startswith_slice7.
  - intros H. unfold add_entry_button, mbind, IO_bind, lift.
    rewrite (CATEGORY_BUDGET_getitem_unknown _ H). reflexivity.
Qed.

(** X15. Every index the page offers for deleting an expense (the labels
    of the expenses shown for the month) is the position of a shown
    expense in the file: the delete succeeds and removes that entry
    only. *)
Theorem delete_selected_entry
    (fs : FileSystem) (df : DataFrame ExpenseRow) (month_filter : string) (i : nat) :
  load_data fs = (Ok df, fs) ->
  i ∈ index (selected_month_data df month_filter) ->
  exists r,
    records df !! i = Some r
    /\ startswith (Date r) month_filter = true
    /\ delete_confirmation to_datetime datetime_csv i false fs
       = (Ok tt, mkFS (Some (Csv (remove_at i (records df)))) (SALARY_FILE fs)).
Proof.
  intros Hload Hi. apply index_select_row in Hi. destruct Hi as (r & Hin & Hmask).
  pose proof (load_data_inv _ _ _ Hload) as (_ & _ & Hrows & _).
  rewrite Hrows in Hin. apply elem_of_RangeIndex in Hin.
  exists r. split; [exact Hin|]. split; [exact Hmask|].
  apply delete_entry_run; [exact Hload|].
  apply lookup_lt_Some in Hin. exact Hin.
Qed.

(** X16. Every index the page offers for deleting a salary entry (the
    labels of the salary table of the month) is the position in the
    store of an entry whose pay date, converted in its column, is in
    that month: the delete succeeds and removes that entry only. *)
Theorem delete_selected_salary
    (fs : FileSystem) (sd : DataFrame SalaryRow) (month_filter : string) (i : nat) :
  load_salary_data to_datetime fs = (Ok sd, fs) ->
  i ∈ index (salary_for_month to_datetime guess_datetime_format strptime sd month_filter) ->
  exists r,
    records sd !! i = Some r
    /\ pay_month to_datetime guess_datetime_format strptime (records sd) r
       = Some month_filter
    /\ delete_confirmation to_datetime datetime_csv i true fs
       = (Ok tt, mkFS (DATA_FILE fs)
                   (Some (Csv (WithPayDate
                      (map (to_csv_record datetime_csv) (remove_at i (records sd))))))).
Proof.
  intros Hload Hi. apply index_salary_for_month in Hi.
  destruct Hi as (r & Hin & Hm).
  pose proof (load_salary_data_inv _ _ _ _ Hload) as (_ & _ & Hrows & _).
  rewrite Hrows in Hin. apply elem_of_RangeIndex in Hin.
  exists r. split; [exact Hin|]. split; [exact Hm|].
  apply delete_salary_run; [exact Hload|].
  apply lookup_lt_Some in Hin. exact Hin.
Qed.

Lemma first_non_null_app_text (col : list value) (s : string) :
  Forall (fun v => textual v = true) col ->
  exists s0, first_non_null (col ++ [Str s]) = Some (Str s0).
Proof.
  unfold first_non_null. induction col as [|v col IH]; intros H.
  - exists s. reflexivity.
  - apply Forall_cons in H. destruct H as [Hv H].
    destruct v; try discriminate; simpl; eauto.
Qed.

(** X18. The Add Salary button stores the entry with its three dates in
    ISO form after the earlier entries. The page files the new entry
    under the month of its pay date when the ISO text of the pay date
    reads as that date in its column, that is with the format guessed
    from the first pay date the file then holds (by itself when no
    format is guessed): then the month is offered for selection and the
    new entry, at the index that follows the earlier ones, is in the
    salary table of that month. The file always holds such a first pay
    date. *)
Theorem add_salary_button_files_under_pay_month
    (fs : FileSystem) (df : DataFrame ExpenseRow) (sd : DataFrame SalaryRow)
    (start_date end_date : date) (salary : Z) (pay_date : date) :
  load_salary_data to_datetime fs = (Ok sd, fs) ->
  exists sd' fs' s0,
    (add_salary_button to_datetime datetime_csv start_date end_date salary pay_date
       ≫= fun _ => load_salary_data to_datetime) fs = (Ok sd', fs')
    /\ records sd'
       = map (csv_round_trip datetime_csv) (records sd)
         ++ [mkSalary (Str (isoformat start_date)) (Str (isoformat end_date)) salary
                      (Str (isoformat pay_date))]
    /\ first_non_null (map Pay_Date (records sd')) = Some (Str s0)
    /\ (match guess_datetime_format s0 with
        | Some format => strptime format (isoformat pay_date)
        | None => to_datetime (isoformat pay_date)
        end = Some (midnight pay_date) ->
        strftime_Ym (midnight pay_date)
        ∈ available_months to_datetime guess_datetime_format strptime df sd'
        /\ length (records sd)
           ∈ index (salary_for_month to_datetime guess_datetime_format strptime sd'
                      (strftime_Ym (midnight pay_date)))).
Proof.
  intros Hload.
  set (e := mkSalary (PyDate start_date) (PyDate end_date) salary (PyDate pay_date)).
  set (e' := mkSalary (Str (isoformat start_date)) (Str (isoformat end_date)) salary
                      (Str (isoformat pay_date))).
  set (l' := map (csv_round_trip datetime_csv) (records sd) ++ [e']).
  assert (Hl : map read_record (map (to_csv_record datetime_csv) (records sd ++ [e])) = l').
  { rewrite map_map, map_app. reflexivity. }
  assert (Hrun : (add_salary_button to_datetime datetime_csv start_date end_date salary pay_date
                    ≫= fun _ => load_salary_data to_datetime) fs
                 = (Ok (mkDataFrame SALARY_COLUMNS (RangeIndex l')),
                    mkFS (DATA_FILE fs)
                      (Some (Csv (WithPayDate
                         (map (to_csv_record datetime_csv) (records sd ++ [e]))))))).
  { unfold add_salary_button, mbind, IO_bind.
    rewrite (add_salary_run _ _ _ _ _ _ _ _ Hload). rewrite load_salary_data_run.
    cbn [SALARY_FILE]. fold e. rewrite Hl. reflexivity. }
  assert (Hrec : records (mkDataFrame SALARY_COLUMNS (RangeIndex l')) = l').
  { unfold records. cbn [rows]. apply RangeIndex_records. }
  assert (Hcol : map Pay_Date l'
                 = map Pay_Date (map (csv_round_trip datetime_csv) (records sd))
                   ++ [Str (isoformat pay_date)]).
  { unfold l'. rewrite map_app. reflexivity. }
  destruct (first_non_null_app_text
              (map Pay_Date (map (csv_round_trip datetime_csv) (records sd)))
              (isoformat pay_date)) as (s0 & Hs0).
  { apply Forall_forall. intros v Hv. apply elem_of_map in Hv.
    destruct Hv as (r & -> & Hr). apply elem_of_map in Hr. destruct Hr as (r0 & -> & _).
    apply textual_read_cell. }
  eexists; eexists; exists s0. split; [exact Hrun|]. split; [exact Hrec|].
  rewrite Hrec, Hcol. split; [exact Hs0|]. intros Hpay.
  assert (Hm : pay_month to_datetime guess_datetime_format strptime l' e'
               = Some (strftime_Ym (midnight pay_date))).
  { unfold pay_month, converted_pay_date, column_format. rewrite Hcol, Hs0.
    cbn [Pay_Date e' to_datetime_cell]. rewrite Hpay. reflexivity. }
  split.
  - apply elem_of_available_months. right. exists e'. rewrite Hrec.
    split; [|exact Hm]. apply elem_of_app. right. left.
  - apply index_salary_for_month. exists e'. rewrite Hrec. split; [|exact Hm].
    cbn [rows]. apply elem_of_RangeIndex. unfold l'.
    rewrite lookup_app_r by (rewrite length_map; lia).
    rewrite length_map, Nat.sub_diag. reflexivity.
Qed.

End FurtherFacts.

(** ** The further properties at concrete stores *)

(** X3 at the store whose expense file cannot be read, and at a delete
    out of range. *)
Lemma failed_writes_change_nothing_witness :
  add_entry "2024-07-03" "Food" 9 50 unreadable_fs = (Raise ParserError, unreadable_fs)
  /\ delete_confirmation iso_to_datetime iso_datetime_csv 9 false tracker_fs
     = (Raise KeyError, tracker_fs).
Proof.
  split.
  - destruct (add_entry "2024-07-03" "Food" 9 50 unreadable_fs) as [r fs'] eqn:H.
    assert (Hr : r = Raise ParserError) by (vm_compute in H; congruence).
    subst r.
    rewrite (proj1 (failed_writes_change_nothing iso_to_datetime iso_datetime_csv
                      unreadable_fs fs' ParserError)
               "2024-07-03"%string "Food"%string 9 50 H).
    reflexivity.
  - destruct (delete_confirmation iso_to_datetime iso_datetime_csv 9 false tracker_fs)
      as [r fs'] eqn:H.
    assert (Hr : r = Raise KeyError) by (vm_compute in H; congruence).
    subst r.
    rewrite (proj2 (proj2 (failed_writes_change_nothing iso_to_datetime iso_datetime_csv
                             tracker_fs fs' KeyError)) 9%nat false H).
    reflexivity.
Defined.

(** X4 at the concrete store (four expenses, index 4) and at an empty
    salary store. *)
Lemma delete_out_of_range_raises_witness :
  delete_confirmation iso_to_datetime iso_datetime_csv 4 false tracker_fs
  = (Raise KeyError, tracker_fs)
  /\ delete_confirmation iso_to_datetime iso_datetime_csv 0 true (mkFS None None)
     = (Raise KeyError, mkFS None None).
Proof.
  split.
  - apply (proj1 (delete_out_of_range_raises iso_to_datetime iso_datetime_csv tracker_fs 4)
             (mkDataFrame EXPENSE_COLUMNS (RangeIndex june_expenses)) eq_refl).
    vm_compute. lia.
  - apply (proj2 (delete_out_of_range_raises iso_to_datetime iso_datetime_csv
                    (mkFS None None) 0)
             (mkDataFrame SALARY_COLUMNS []) eq_refl).
    vm_compute. lia.
Defined.

(** X5 at the older salary file, after deleting its first record. *)
Lemma salary_write_adds_pay_date_column_witness :
  exists recs sd,
    SALARY_FILE (snd (delete_confirmation iso_to_datetime iso_datetime_csv 0 true old_salary_fs))
    = Some (Csv (WithPayDate recs))
    /\ load_salary_data iso_to_datetime
         (snd (delete_confirmation iso_to_datetime iso_datetime_csv 0 true old_salary_fs))
       = (Ok sd, snd (delete_confirmation iso_to_datetime iso_datetime_csv 0 true old_salary_fs))
    /\ records sd = map read_record recs.
Proof.
  destruct (salary_write_adds_pay_date_column iso_to_datetime iso_datetime_csv old_salary_fs
              (snd (delete_confirmation iso_to_datetime iso_datetime_csv 0 true old_salary_fs)))
    as (recs & sd & H1 & H2 & H3 & _).
  - right. exists 0%nat. vm_compute. reflexivity.
  - exists recs, sd. auto.
Defined.

(** X6 at the concrete store: a fifth expense appended, then deleted at
    index 4. *)
Lemma append_then_delete_last_witness :
  exists df' fs',
    (add_entry "2024-07-03" "Food" 9 50
       ≫= fun _ => delete_confirmation iso_to_datetime iso_datetime_csv 4 false
       ≫= fun _ => load_data) tracker_fs = (Ok df', fs')
    /\ records df' = june_expenses.
Proof.
  destruct (proj1 (append_then_delete_last iso_to_datetime iso_datetime_csv tracker_fs)
              (mkDataFrame EXPENSE_COLUMNS (RangeIndex june_expenses))
              "2024-07-03"%string "Food"%string 9 50 eq_refl)
    as (df' & fs' & Hrun & Hrec & _).
  exists df', fs'. split; [exact Hrun | exact Hrec].
Defined.

(** X8 at the salary file whose Start Date is no date. *)
Lemma total_salary_raises_on_bad_date_witness :
  get_total_salary_for_month iso_to_datetime "2024-06" bad_start_date_fs
  = (Raise ValueError, bad_start_date_fs).
Proof.
  apply (proj1 (total_salary_raises_on_bad_date iso_to_datetime bad_start_date_fs
                  (mkDataFrame SALARY_COLUMNS
                     (RangeIndex [mkSalary (Str "mid June") (Str "2024-06-28") 480
                                           (Str "2024-06-29")]))
                  "2024-06" eq_refl eq_refl)).
Defined.

(** X9 at the concrete store, for August 2024. *)
Lemma no_salary_starts_in_month_witness :
  get_total_salary_for_month iso_to_datetime "2024-08" tracker_fs = (Ok 0, tracker_fs)
  /\ total_monthly_income iso_to_datetime "2024-08" tracker_fs = (Ok 800, tracker_fs).
Proof.
  apply (no_salary_starts_in_month iso_to_datetime tracker_fs
           (mkDataFrame SALARY_COLUMNS (RangeIndex [read_record june_salary]))
           "2024-08" eq_refl eq_refl eq_refl).
Defined.

(** X11 at the concrete expenses, for June 2024. *)
Lemma month_filter_selects_its_bucket_witness :
  records (selected_month_data (mkDataFrame EXPENSE_COLUMNS (RangeIndex june_expenses))
                               "2024-06")
  = [mkExpense "2024-06-01" "Food" 20 50; mkExpense "2024-06-03" "Transport" 7 20;
     mkExpense "2024-06-09" "Food" 12 50].
Proof.
  rewrite (proj2 (month_filter_selects_its_bucket
                    (mkDataFrame EXPENSE_COLUMNS (RangeIndex june_expenses)) "2024-06")
             eq_refl).
  reflexivity.
Defined.

(** X12 at the concrete store. *)
Lemma default_month_is_latest_witness :
  exists m,
    default_month_filter
      (available_months iso_text_to_datetime iso_guess_datetime_format iso_strptime
         (mkDataFrame EXPENSE_COLUMNS (RangeIndex june_expenses))
         (mkDataFrame SALARY_COLUMNS (RangeIndex [read_record june_salary])))
    = Some m
    /\ str_le "2024-06" m.
Proof.
  destruct (default_month_is_latest iso_text_to_datetime iso_guess_datetime_format
              iso_strptime
              (mkDataFrame EXPENSE_COLUMNS (RangeIndex june_expenses))
              (mkDataFrame SALARY_COLUMNS (RangeIndex [read_record june_salary]))
              "2024-06") as (m & H1 & _ & H2).
  - compute_done.
  - exists m. auto.
Defined.

(** X13 at the concrete store, for July 2024, and at the store with
    pay dates of two forms, for July 2024. *)
Lemma every_offered_month_shows_data_witness :
  (empty (selected_month_data (mkDataFrame EXPENSE_COLUMNS (RangeIndex june_expenses))
                              "2024-07") = false
   \/ empty (salary_for_month iso_text_to_datetime iso_guess_datetime_format iso_strptime
               (mkDataFrame SALARY_COLUMNS (RangeIndex [read_record june_salary]))
               "2024-07") = false)
  /\ (empty (selected_month_data
               (mkDataFrame EXPENSE_COLUMNS (RangeIndex [mkExpense "2024-06-01" "Food" 20 50]))
               "2024-07") = false
      \/ empty (salary_for_month iso_text_to_datetime iso_guess_datetime_format iso_strptime
                  (mkDataFrame SALARY_COLUMNS
                     (RangeIndex (map read_record mixed_pay_date_records)))
                  "2024-07") = false).
Proof.
  split.
  - apply (every_offered_month_shows_data iso_text_to_datetime iso_guess_datetime_format
             iso_strptime).
    compute_done.
  - apply (every_offered_month_shows_data iso_text_to_datetime iso_guess_datetime_format
             iso_strptime).
    compute_done.
Defined.

(** X14 at the concrete store: 64 spent on Shopping on 2024-08-05. *)
Lemma add_entry_button_files_under_month_witness :
  exists df' fs',
    (add_entry_button (mkDate 2024 8 5) "Shopping" 64 ≫= fun _ => load_data) tracker_fs
    = (Ok df', fs')
    /\ records df' = june_expenses ++ [mkExpense "2024-08-05" "Shopping" 64 100]
    /\ "2024-08"%string
       ∈ available_months iso_text_to_datetime iso_guess_datetime_format iso_strptime df'
           (mkDataFrame SALARY_COLUMNS (RangeIndex [read_record june_salary])).
Proof.
  destruct (proj1 (add_entry_button_files_under_month iso_text_to_datetime
              iso_guess_datetime_format iso_strptime tracker_fs
              (mkDataFrame EXPENSE_COLUMNS (RangeIndex june_expenses))
              (mkDataFrame SALARY_COLUMNS (RangeIndex [read_record june_salary]))
              (mkDate 2024 8 5) "Shopping" 64 eq_refl))
    as (b & df' & fs' & Hb & Hrun & Hrec & Hm & _).
  - compute_done.
  - exists df', fs'. split; [exact Hrun|].
    assert (Hb' : b = 100).
    { unfold add_entry_button, mbind, IO_bind, lift in Hrun.
      vm_compute in Hrun. injection Hrun as Hdf _. rewrite <- Hdf in Hrec.
      vm_compute in Hrec. congruence. }
    subst b. split; [exact Hrec | exact Hm].
Defined.

(** X15 at the concrete store: index 3, offered for July 2024. *)
Lemma delete_selected_entry_witness :
  exists r,
    records (mkDataFrame EXPENSE_COLUMNS (RangeIndex june_expenses)) !! 3%nat = Some r
    /\ startswith (Date r) "2024-07" = true
    /\ delete_confirmation iso_to_datetime iso_datetime_csv 3 false tracker_fs
       = (Ok tt, mkFS (Some (Csv (remove_at 3 june_expenses))) (SALARY_FILE tracker_fs)).
Proof.
  apply (delete_selected_entry iso_to_datetime iso_datetime_csv tracker_fs
           (mkDataFrame EXPENSE_COLUMNS (RangeIndex june_expenses)) "2024-07" 3 eq_refl).
  compute_done.
Defined.

(** X16 at the concrete store: index 0, offered for June 2024. *)
Lemma delete_selected_salary_witness :
  exists r,
    records (mkDataFrame SALARY_COLUMNS (RangeIndex [read_record june_salary])) !! 0%nat
    = Some r
    /\ pay_month iso_text_to_datetime iso_guess_datetime_format iso_strptime
         [read_record june_salary] r = Some "2024-06"%string
    /\ delete_confirmation iso_text_to_datetime iso_datetime_csv 0 true tracker_fs
       = (Ok tt, mkFS (DATA_FILE tracker_fs) (Some (Csv (WithPayDate [])))).
Proof.
  apply (delete_selected_salary iso_text_to_datetime iso_datetime_csv
           iso_guess_datetime_format iso_strptime tracker_fs
           (mkDataFrame SALARY_COLUMNS (RangeIndex [read_record june_salary]))
           "2024-06" 0 eq_refl).
  compute_done.
Defined.

(** X17 at the June expenses of the concrete store. *)
Lemma overview_has_one_sum_per_category_witness :
  exists o,
    monthly_overview
      (selected_month_data (mkDataFrame EXPENSE_COLUMNS (RangeIndex june_expenses)) "2024-06")
    = Some o
    /\ StronglySorted str_lt (map fst (total_spent_by_category o)).
Proof.
  destruct (overview_has_one_sum_per_category
              (selected_month_data (mkDataFrame EXPENSE_COLUMNS (RangeIndex june_expenses))
                                   "2024-06") eq_refl)
    as (o & Ho & Hs & _).
  exists o. auto.
Defined.

(** X18 at the concrete store: a period paid on 2024-08-01 is filed
    under August 2024, the pay date of the file being of the same
    form. *)
Lemma add_salary_button_files_under_pay_month_witness :
  exists sd' fs',
    (add_salary_button iso_text_to_datetime timestamp_str
       (mkDate 2024 7 16) (mkDate 2024 7 29) 530 (mkDate 2024 8 1)
       ≫= fun _ => load_salary_data iso_text_to_datetime) tracker_fs = (Ok sd', fs')
    /\ first_non_null (map Pay_Date (records sd')) = Some (Str "2024-06-15")
    /\ "2024-08"%string
       ∈ available_months iso_text_to_datetime iso_guess_datetime_format iso_strptime
           (mkDataFrame EXPENSE_COLUMNS (RangeIndex june_expenses)) sd'
    /\ 1%nat ∈ index (salary_for_month iso_text_to_datetime iso_guess_datetime_format
                        iso_strptime sd' "2024-08").
Proof.
  destruct (add_salary_button_files_under_pay_month iso_text_to_datetime timestamp_str
              iso_guess_datetime_format iso_strptime
              tracker_fs (mkDataFrame EXPENSE_COLUMNS (RangeIndex june_expenses))
              (mkDataFrame SALARY_COLUMNS (RangeIndex [read_record june_salary]))
              (mkDate 2024 7 16) (mkDate 2024 7 29) 530 (mkDate 2024 8 1)
              eq_refl)
    as (sd' & fs' & s0 & Hrun & Hrec & Hs0 & Hfiled).
  exists sd', fs'. split; [exact Hrun|].
  assert (H0 : s0 = "2024-06-15"%string).
  { rewrite Hrec in Hs0. vm_compute in Hs0. injection Hs0 as <-. reflexivity. }
  subst s0. split; [exact Hs0|]. apply Hfiled. reflexivity.
Defined.
